(** * BooksPipeline: bronze -> silver -> gold and the top-N views

    A shallow embedding of [src/main.py] (class [BooksPipeline]) together
    with the properties of its cleaning, aggregation and ranking stages.

    - [Module Spark] gives the meaning of the DataFrame operations the
      pipeline calls ([dropna], [filter], [groupBy().agg()], [join],
      [orderBy(desc())], [limit]).  A DataFrame is the list of the rows it
      evaluates to; a cell is nullable ([option]); SQL comparisons are
      three-valued.
    - [Module Books], [Ratings], [Users], [Gold], ... give the row types.
    - The methods of the class are written in a small state-and-exception
      monad over the attributes of [self].

    What the engine leaves open is a parameter of the model, and what it
    fixes is modelled as it is:
    - [avg] returns a double: the exact mean rounded to the nearest double
      ([nearest_double]).  Sums and counts stay below 2^53, where they are
      exact as doubles.
    - the order of the rows with equal metric after [orderBy] is the
      engine's choice, taken anew by every job: each top-N method takes the
      [RowOrder] of its job as an argument.
    - [limit] takes a Java int: a count outside 32 bits never reaches the
      engine.
    - each CSV read of [load_bronze] can raise.

    The row types fix the columns of the three datasets (a dataset that
    lacks a column the code names is outside the model), and the CSV files
    do not change during a run, so that a DataFrame evaluates to the same
    rows at every action. *)

From Stdlib Require Import String List ZArith QArith Qabs Bool Lia.
From Stdlib Require Import Sorted Permutation.
Import ListNotations.
Local Open Scope string_scope.
Local Open Scope list_scope.
Local Open Scope Z_scope.

Set Implicit Arguments.

(* ================================================================== *)
(** ** The DataFrame operations used by the pipeline *)
(* ================================================================== *)

(** The exceptions the pipeline can raise. *)
Inductive PyError : Type :=
| AttributeError (attr : string)
| AnalysisException (msg : string)
| Py4JError (msg : string).

Module Spark.

Definition DataFrame (R : Type) : Type := list R.

(** The order in which a job happens to deliver rows: some rearrangement
    of them. *)
Record RowOrder : Type := mkRowOrder
  { arrange : forall R : Type, list R -> list R;
    arrange_perm : forall (R : Type) (l : list R), Permutation l (arrange l) }.

(** The bounds of a Java int. *)
Definition int_min : Z := -2147483648.
Definition int_max : Z := 2147483647.

(** *** Division of doubles *)

(** The integer nearest to [n / d], ties to even ([d > 0]). *)
Definition nearest_even (n d : Z) : Z :=
  let q := n / d in
  let r := n mod d in
  if 2 * r <? d then q
  else if d <? 2 * r then q + 1
  else if Z.even q then q else q + 1.

(** [a / (c * 2^e)] as a fraction of integers. *)
Definition scaled (a c e : Z) : Z * Z :=
  if 0 <=? e then (a, c * 2 ^ e) else (a * 2 ^ (- e), c).

(** The exponent [e] with [2^52 <= a / (c * 2^e) < 2^53] ([a, c > 0]). *)
Definition binade (a c : Z) : Z :=
  let e0 := Z.log2 a - Z.log2 c - 52 in
  if 2 ^ 52 * snd (scaled a c e0) <=? fst (scaled a c e0) then e0 else e0 - 1.

Definition times_pow2 (m e : Z) : Q :=
  if 0 <=? e then inject_Z (m * 2 ^ e) else Qmake m (Z.to_pos (2 ^ (- e))).

(** The double nearest to a rational, ties to even: a 53-bit integer times
    a power of two.  The exponent range of doubles is not modelled. *)
Definition nearest_double (x : Q) : Q :=
  let s := Qnum x in
  let c := Z.pos (Qden x) in
  if s =? 0 then 0%Q
  else
    let e := binade (Z.abs s) c in
    let m := nearest_even (fst (scaled (Z.abs s) c e))
                          (snd (scaled (Z.abs s) c e)) in
    times_pow2 (Z.sgn s * m) e.

(** A SQL value that may be NULL. *)
Definition is_null {A} (c : option A) : bool :=
  match c with None => true | Some _ => false end.

(** [col >= k] and [col <= k]: NULL when the cell is NULL. *)
Definition sql_ge (c : option Z) (k : Z) : option bool :=
  match c with None => None | Some v => Some (k <=? v) end.

Definition sql_le (c : option Z) (k : Z) : option bool :=
  match c with None => None | Some v => Some (v <=? k) end.

(** [a & b] on columns: Kleene conjunction. *)
Definition sql_and (a b : option bool) : option bool :=
  match a, b with
  | Some false, _ | _, Some false => Some false
  | Some true, Some true => Some true
  | _, _ => None
  end.

(** Equality of join keys: a NULL key matches nothing. *)
Definition sql_key_match {K} (eqb : K -> K -> bool) (a b : option K) : bool :=
  match a, b with
  | Some x, Some y => eqb x y
  | _, _ => false
  end.

(** Equality of grouping keys: NULL is a group of its own. *)
Definition group_key_eqb {K} (eqb : K -> K -> bool) (a b : option K) : bool :=
  match a, b with
  | Some x, Some y => eqb x y
  | None, None => true
  | _, _ => false
  end.

Section Relational.
Variables R : Type.

(** [df.filter(cond)]: a row stays when the condition is TRUE, and goes
    when it is FALSE or NULL. *)
Definition filter_where (cond : R -> option bool) (df : DataFrame R)
  : DataFrame R :=
  filter (fun r => match cond r with Some true => true | _ => false end) df.

(** [df.dropna(subset=...)] with the default [how="any"]: a row goes when
    one of the listed cells is NULL.  [nulls r] lists, for the row [r],
    whether each cell of the subset is NULL. *)
Definition dropna (nulls : R -> list bool) (df : DataFrame R)
  : DataFrame R :=
  filter (fun r => negb (existsb (fun b => b) (nulls r))) df.

(** [df.limit(n)]: the first [n] rows.  The method takes a Java int: a
    Python int outside 32 bits finds no method to call; inside, the engine
    rejects a negative count. *)
Definition limit (n : Z) (df : DataFrame R) : PyError + DataFrame R :=
  if (n <? int_min) || (int_max <? n)
  then inl (Py4JError "Method limit([class java.lang.Long]) does not exist")
  else if n <? 0
  then inl (AnalysisException
              "The limit expression must be equal to or greater than 0")
  else inr (firstn (Z.to_nat n) df).

(** [df.orderBy(desc(metric))]: the rows as the job delivers them, put in
    descending order of the metric. *)
Fixpoint insert_desc (metric : R -> Z) (x : R) (l : list R) : list R :=
  match l with
  | [] => [x]
  | y :: l' =>
      if metric y <=? metric x then x :: y :: l'
      else y :: insert_desc metric x l'
  end.

Definition orderBy_desc (o : RowOrder) (metric : R -> Z) (df : DataFrame R)
  : DataFrame R :=
  fold_right (insert_desc metric) [] (arrange o df).

(** [count(col)]: the number of rows whose cell is not NULL. *)
Definition count {V} (cell : R -> option V) (rows : list R) : Z :=
  Z.of_nat (length (filter (fun r => negb (is_null (cell r))) rows)).

(** [avg(col)]: a running sum and a running count over the cells that
    are not NULL, divided as doubles at the end; NULL when there is no
    such cell. *)
Definition avg_step (cell : R -> option Z) (acc : Z * Z) (r : R) : Z * Z :=
  match cell r with
  | None => acc
  | Some v => (fst acc + v, snd acc + 1)
  end.

Definition avg (cell : R -> option Z) (rows : list R) : option Q :=
  let '(s, n) := fold_left (avg_step cell) rows (0, 0) in
  if n =? 0 then None else Some (nearest_double (Qmake s (Z.to_pos n))).

Section Grouping.
Variables (K : Type) (eqb : K -> K -> bool).

(** The distinct values of a list, in order of first occurrence. *)
Fixpoint distinct_from (seen : list K) (l : list K) : list K :=
  match l with
  | [] => []
  | k :: l' =>
      if existsb (eqb k) seen then distinct_from seen l'
      else k :: distinct_from (k :: seen) l'
  end.

Definition distinct (l : list K) : list K := distinct_from [] l.

(** [df.groupBy(key)]: one group for each distinct key, holding the
    rows with that key. *)
Definition groupBy (key : R -> K) (df : DataFrame R)
  : list (K * list R) :=
  map (fun k => (k, filter (fun r => eqb (key r) k) df))
      (distinct (map key df)).
End Grouping.

End Relational.

(** [left.join(right, on=key, how="inner")]: each pair of a left and a right
    row whose keys are equal and not NULL, built into one row by [mk]. *)
Definition join_inner {L R K O} (eqb : K -> K -> bool)
    (kl : L -> option K) (kr : R -> option K) (mk : L -> R -> O)
    (left : DataFrame L) (right : DataFrame R) : DataFrame O :=
  flat_map
    (fun x => map (mk x) (filter (fun y => sql_key_match eqb (kl x) (kr y)) right))
    left.

(** [df.toPandas()] collects the rows as they are. *)
Definition toPandas {R} (df : DataFrame R) : list R := df.

End Spark.

Import Spark.

(* ================================================================== *)
(** ** Rows of the datasets *)
(* ================================================================== *)

(** Columns are named as in the CSV headers the code refers to, with [_]
    for [-].  [other] holds the cells of the columns the code never names. *)

Module Books.
Record row := mk
    { ISBN : option string;
      Book_Title : option string;
      Book_Author : option string;
      other : list (option string) }.
End Books.

Module Ratings.
Record row := mk
    { User_ID : option Z;
      ISBN : option string;
      Book_Rating : option Z }.
End Ratings.

Module Users.
Record row := mk
    { User_ID : option Z;
      Location : option string;
      Age : option Z;
      other : list (option string) }.
End Users.

(** [groupBy("ISBN").agg(count(...).alias("rating_count"),
    avg(...).alias("avg_rating"))]. *)
Module BookStats.
Record row := mk
    { ISBN : option string;
      rating_count : Z;
      avg_rating : option Q }.
End BookStats.

(** The statistics joined with the book's columns. *)
Module Gold.
Record row := mk
    { ISBN : option string;
      rating_count : Z;
      avg_rating : option Q;
      Book_Title : option string;
      Book_Author : option string;
      other : list (option string) }.
End Gold.

Module AuthorCount.
Record row := mk
    { Book_Author : option string;
      rating_count : Z }.
End AuthorCount.

(** Users joined with ratings on [User-ID]. *)
Module UserRating.
Record row := mk
    { User_ID : option Z;
      Location : option string;
      Age : option Z;
      other : list (option string);
      ISBN : option string;
      Book_Rating : option Z }.
End UserRating.

Module LocationCount.
Record row := mk
    { Location : option string;
      user_count : Z }.
End LocationCount.

Module AgeCount.
Record row := mk
    { Age : option Z;
      user_count : Z }.
End AgeCount.

(* ================================================================== *)
(** ** The pipeline object and its methods *)
(* ================================================================== *)

(** The attributes of [self] that hold data; an attribute that was never
    assigned is [None]. *)
Record BooksPipeline := mkPipeline
  { books : option (DataFrame Books.row);
    ratings : option (DataFrame Ratings.row);
    users : option (DataFrame Users.row);
    books_silver : option (DataFrame Books.row);
    ratings_silver : option (DataFrame Ratings.row);
    users_silver : option (DataFrame Users.row);
    gold_books : option (DataFrame Gold.row) }.

(** A method body: it reads and assigns attributes of [self] and either
    returns or raises.  Assignments made before a raise stay. *)
Definition Py (A : Type) : Type :=
  BooksPipeline -> BooksPipeline * (PyError + A).

Definition ret {A} (a : A) : Py A := fun self => (self, inr a).

Definition raise {A} (e : PyError) : Py A := fun self => (self, inl e).

Definition bind {A B} (m : Py A) (k : A -> Py B) : Py B :=
  fun self =>
    match m self with
    | (self', inl e) => (self', inl e)
    | (self', inr a) => k a self'
    end.

Declare Scope py_scope.
Delimit Scope py_scope with py.
Notation "x <- m ;; k" := (bind m (fun x => k))
  (at level 61, m at next level, right associativity) : py_scope.
Notation "m ;; k" := (bind m (fun _ => k))
  (at level 61, right associativity) : py_scope.

(** [self.<name>]: raises when the attribute does not exist. *)
Definition getattr {A} (name : string) (field : BooksPipeline -> option A)
  : Py A :=
  fun self =>
    match field self with
    | Some v => (self, inr v)
    | None => (self, inl (AttributeError name))
    end.

Definition update (f : BooksPipeline -> BooksPipeline) : Py unit :=
  fun self => (f self, inr tt).

Definition set_books v : Py unit := update (fun s =>
  mkPipeline (Some v) (ratings s) (users s) (books_silver s)
             (ratings_silver s) (users_silver s) (gold_books s)).
Definition set_ratings v : Py unit := update (fun s =>
  mkPipeline (books s) (Some v) (users s) (books_silver s)
             (ratings_silver s) (users_silver s) (gold_books s)).
Definition set_users v : Py unit := update (fun s =>
  mkPipeline (books s) (ratings s) (Some v) (books_silver s)
             (ratings_silver s) (users_silver s) (gold_books s)).
Definition set_books_silver v : Py unit := update (fun s =>
  mkPipeline (books s) (ratings s) (users s) (Some v)
             (ratings_silver s) (users_silver s) (gold_books s)).
Definition set_ratings_silver v : Py unit := update (fun s =>
  mkPipeline (books s) (ratings s) (users s) (books_silver s)
             (Some v) (users_silver s) (gold_books s)).
Definition set_users_silver v : Py unit := update (fun s =>
  mkPipeline (books s) (ratings s) (users s) (books_silver s)
             (ratings_silver s) (Some v) (gold_books s)).
Definition set_gold_books v : Py unit := update (fun s =>
  mkPipeline (books s) (ratings s) (users s) (books_silver s)
             (ratings_silver s) (users_silver s) (Some v)).

(** [df.limit(n)] inside a method: what [limit] rejects is raised. *)
Definition limit_or_raise {R} (n : Z) (df : DataFrame R) : Py (DataFrame R) :=
  fun self => (self, limit n df).

(** [self.spark.read.csv(path, ...)]: the reader hands back a DataFrame or
    raises (a path that does not exist, for one). *)
Definition read_csv {R} (result : PyError + DataFrame R) : Py (DataFrame R) :=
  fun self => (self, result).

Local Open Scope py_scope.

(** [__init__]: no dataset attribute exists yet. *)
Definition init : BooksPipeline :=
  mkPipeline None None None None None None None.

(** [load_bronze]: the three CSV files are read and bound to [books],
    [ratings] and [users], one after the other. *)
Definition load_bronze (books_csv : PyError + DataFrame Books.row)
    (ratings_csv : PyError + DataFrame Ratings.row)
    (users_csv : PyError + DataFrame Users.row)
  : Py unit :=
  b <- read_csv books_csv ;;
  set_books b ;;
  r <- read_csv ratings_csv ;;
  set_ratings r ;;
  u <- read_csv users_csv ;;
  set_users u.

(** The cells [dropna] looks at. *)
Definition books_subset_nulls (b : Books.row) : list bool :=
  [is_null (Books.Book_Title b); is_null (Books.Book_Author b)].

Definition users_all_nulls (u : Users.row) : list bool :=
  is_null (Users.User_ID u) :: is_null (Users.Location u)
  :: is_null (Users.Age u) :: map is_null (Users.other u).

(** [(col("Book-Rating") >= 0) & (col("Book-Rating") <= 10)]. *)
Definition valid_rating (r : Ratings.row) : option bool :=
  sql_and (sql_ge (Ratings.Book_Rating r) 0) (sql_le (Ratings.Book_Rating r) 10).

Definition transform_silver : Py unit :=
  b <- getattr "books" books ;;
  set_books_silver (dropna books_subset_nulls b) ;;
  r <- getattr "ratings" ratings ;;
  set_ratings_silver (filter_where valid_rating r) ;;
  u <- getattr "users" users ;;
  set_users_silver (dropna users_all_nulls u).

Definition isbn_eqb : option string -> option string -> bool :=
  group_key_eqb String.eqb.

(** [groupBy("ISBN").agg(count("Book-Rating"), avg("Book-Rating"))]. *)
Definition book_stats (rs : DataFrame Ratings.row) : DataFrame BookStats.row :=
  map (fun g : option string * list Ratings.row =>
         BookStats.mk (fst g)
                      (count Ratings.Book_Rating (snd g))
                      (avg Ratings.Book_Rating (snd g)))
      (groupBy isbn_eqb Ratings.ISBN rs).

Definition gold_row (s : BookStats.row) (b : Books.row) : Gold.row :=
  Gold.mk (BookStats.ISBN s) (BookStats.rating_count s) (BookStats.avg_rating s)
          (Books.Book_Title b) (Books.Book_Author b) (Books.other b).

Definition aggregate_gold : Py unit :=
  rs <- getattr "ratings_silver" ratings_silver ;;
  bs <- getattr "books_silver" books_silver ;;
  set_gold_books
    (join_inner String.eqb BookStats.ISBN Books.ISBN gold_row (book_stats rs) bs).

Definition get_top_books (o : RowOrder) (number_of_books : Z)
  : Py (list Gold.row) :=
  gold <- getattr "gold_books" gold_books ;;
  top <- limit_or_raise number_of_books
           (orderBy_desc o Gold.rating_count gold) ;;
  ret (toPandas top).

(** [groupBy("Book-Author").agg(count("rating_count").alias("rating_count"))]. *)
Definition author_counts (gold : DataFrame Gold.row) : DataFrame AuthorCount.row :=
  map (fun g : option string * list Gold.row =>
         AuthorCount.mk (fst g)
                        (count (fun x => Some (Gold.rating_count x)) (snd g)))
      (groupBy (group_key_eqb String.eqb) Gold.Book_Author gold).

Definition get_top_authors (o : RowOrder) (number_of_authors : Z)
  : Py (list AuthorCount.row) :=
  gold <- getattr "gold_books" gold_books ;;
  top <- limit_or_raise number_of_authors
           (orderBy_desc o AuthorCount.rating_count (author_counts gold)) ;;
  ret (toPandas top).

Definition user_rating_row (u : Users.row) (r : Ratings.row) : UserRating.row :=
  UserRating.mk (Users.User_ID u) (Users.Location u) (Users.Age u)
                (Users.other u) (Ratings.ISBN r) (Ratings.Book_Rating r).

(** [users_silver.join(ratings_silver, on="User-ID", how="inner")]. *)
Definition users_join_ratings (us : DataFrame Users.row)
    (rs : DataFrame Ratings.row) : DataFrame UserRating.row :=
  join_inner Z.eqb Users.User_ID Ratings.User_ID user_rating_row us rs.

Definition location_counts (j : DataFrame UserRating.row)
  : DataFrame LocationCount.row :=
  map (fun g : option string * list UserRating.row =>
         LocationCount.mk (fst g) (count UserRating.User_ID (snd g)))
      (groupBy (group_key_eqb String.eqb) UserRating.Location j).

Definition age_counts (j : DataFrame UserRating.row)
  : DataFrame AgeCount.row :=
  map (fun g : option Z * list UserRating.row =>
         AgeCount.mk (fst g) (count UserRating.User_ID (snd g)))
      (groupBy (group_key_eqb Z.eqb) UserRating.Age j).

Definition get_top_locations_of_users_who_rated_books (o : RowOrder)
    (number_of_locations : Z) : Py (list LocationCount.row) :=
  us <- getattr "users_silver" users_silver ;;
  rs <- getattr "ratings_silver" ratings_silver ;;
  top <- limit_or_raise number_of_locations
           (orderBy_desc o LocationCount.user_count
              (location_counts (users_join_ratings us rs))) ;;
  ret (toPandas top).

Definition get_top_age_of_users_who_rated_books (o : RowOrder)
    (number_of_ages : Z) : Py (list AgeCount.row) :=
  us <- getattr "users_silver" users_silver ;;
  rs <- getattr "ratings_silver" ratings_silver ;;
  top <- limit_or_raise number_of_ages
           (orderBy_desc o AgeCount.user_count
              (age_counts (users_join_ratings us rs))) ;;
  ret (toPandas top).

Local Close Scope py_scope.

(* ================================================================== *)
(** ** Vocabulary of the statements *)
(* ================================================================== *)

(** A method call that returns [v] and leaves [self] as [self']. *)
Definition returns {A} (m : Py A) (self self' : BooksPipeline) (v : A) : Prop :=
  m self = (self', inr v).

(** A method call that raises [e]. *)
Definition raises {A} (m : Py A) (self : BooksPipeline) (e : PyError) : Prop :=
  snd (m self) = inl e.

(** The values of a column over a list of rows, NULL cells left out. *)
Definition cell_values {R} (cell : R -> option Z) (rows : list R) : list Z :=
  flat_map (fun r => match cell r with Some v => [v] | None => [] end) rows.

Definition rating_values (rows : list Ratings.row) : list Z :=
  cell_values Ratings.Book_Rating rows.

Definition Zsum (l : list Z) : Z := fold_right Z.add 0 l.

(** The arithmetic mean of a list of integers, as a rational. *)
Definition mean (l : list Z) : Q :=
  (inject_Z (Zsum l) / inject_Z (Z.of_nat (length l)))%Q.

(** [q] is [m] up to the rounding of a double: they differ by at most the
    fraction 2^-53 of [m] ([m >= 0]). *)
Definition within_rounding (q m : Q) : Prop :=
  (Qabs (q - m) <= m * (1 # 9007199254740992))%Q.

Definition has_isbn (i : string) (c : option string) : bool :=
  match c with Some j => String.eqb i j | None => false end.

(** The rows of a dataset that carry the ISBN [i]. *)
Definition ratings_of (i : string) (rs : list Ratings.row) : list Ratings.row :=
  filter (fun r => has_isbn i (Ratings.ISBN r)) rs.

Definition books_of (i : string) (bs : list Books.row) : list Books.row :=
  filter (fun b => has_isbn i (Books.ISBN b)) bs.

Definition gold_of (i : string) (gold : list Gold.row) : list Gold.row :=
  filter (fun g => has_isbn i (Gold.ISBN g)) gold.

(** A rating value inside the closed interval [0, 10]. *)
Definition in_range (r : Ratings.row) : Prop :=
  exists v, Ratings.Book_Rating r = Some v /\ 0 <= v <= 10.

(** No cell of a user row is NULL. *)
Definition no_null_cell (u : Users.row) : Prop :=
  Users.User_ID u <> None /\ Users.Location u <> None /\ Users.Age u <> None
  /\ Forall (fun c => c <> None) (Users.other u).

(** Descending by a metric: every row is at least as large as each row
    after it. *)
Definition sorted_desc {R} (metric : R -> Z) (l : list R) : Prop :=
  StronglySorted (fun a b => metric b <= metric a) l.

(** The gold rows of one author, and the joined rows of one bucket. *)
Definition gold_by_author (a : option string) (gold : list Gold.row)
  : list Gold.row :=
  filter (fun g => group_key_eqb String.eqb (Gold.Book_Author g) a) gold.

Definition joined_at_location (l : option string) (j : list UserRating.row)
  : list UserRating.row :=
  filter (fun x => group_key_eqb String.eqb (UserRating.Location x) l) j.

Definition joined_at_age (a : option Z) (j : list UserRating.row)
  : list UserRating.row :=
  filter (fun x => group_key_eqb Z.eqb (UserRating.Age x) a) j.

(** The user rows of one bucket. *)
Definition users_at_location (l : option string) (us : list Users.row)
  : list Users.row :=
  filter (fun u => group_key_eqb String.eqb (Users.Location u) l) us.

Definition users_at_age (a : option Z) (us : list Users.row)
  : list Users.row :=
  filter (fun u => group_key_eqb Z.eqb (Users.Age u) a) us.

(** The number of rating rows of one user. *)
Definition ratings_by_user (u : Users.row) (rs : list Ratings.row) : nat :=
  length (filter (fun r => sql_key_match Z.eqb (Users.User_ID u) (Ratings.User_ID r)) rs).

Definition nat_sum (l : list nat) : nat := fold_right Nat.add 0%nat l.

(** Top-N of [input] under [metric]: [top] is descending, has
    [min n (length input)] rows, and together with the rows left out makes
    up [input], none of which exceeds a row that was kept. *)
Definition ranked {R} (metric : R -> Z) (n : Z) (input top : list R) : Prop :=
  length top = Nat.min (Z.to_nat n) (length input)
  /\ sorted_desc metric top
  /\ exists rest,
       Permutation input (top ++ rest)
       /\ forall x y, In x top -> In y rest -> metric y <= metric x.

(** Method calls made on one pipeline object, and the object after each. *)
Inductive call : Type :=
| Load_bronze (b : PyError + DataFrame Books.row)
              (r : PyError + DataFrame Ratings.row)
              (u : PyError + DataFrame Users.row)
| Transform_silver
| Aggregate_gold
| Get_top_books (o : RowOrder) (n : Z)
| Get_top_authors (o : RowOrder) (n : Z)
| Get_top_locations (o : RowOrder) (n : Z)
| Get_top_ages (o : RowOrder) (n : Z).

Definition outcome {A} (p : BooksPipeline * (PyError + A))
  : BooksPipeline * bool :=
  (fst p, match snd p with inr _ => true | inl _ => false end).

(** The object after a call, and whether the call returned. *)
Definition run_call (c : call) (self : BooksPipeline) : BooksPipeline * bool :=
  match c with
  | Load_bronze b r u => outcome (load_bronze b r u self)
  | Transform_silver => outcome (transform_silver self)
  | Aggregate_gold => outcome (aggregate_gold self)
  | Get_top_books o n => outcome (get_top_books o n self)
  | Get_top_authors o n => outcome (get_top_authors o n self)
  | Get_top_locations o n =>
      outcome (get_top_locations_of_users_who_rated_books o n self)
  | Get_top_ages o n =>
      outcome (get_top_age_of_users_who_rated_books o n self)
  end.

(** A sequence of calls, with the log of which calls returned. *)
Fixpoint run_calls (cs : list call) (self : BooksPipeline)
  : BooksPipeline * list (call * bool) :=
  match cs with
  | [] => (self, [])
  | c :: cs' =>
      let (s1, ok) := run_call c self in
      let (s2, log) := run_calls cs' s1 in
      (s2, (c, ok) :: log)
  end.





(** The number of distinct ISBNs among gold rows. *)
Definition distinct_isbns (rows : list Gold.row) : nat :=
  length (distinct isbn_eqb (map Gold.ISBN rows)).

(** Two row orders: rows as they come, and rows in reverse. *)
Definition input_order : RowOrder :=
  mkRowOrder (fun _ l => l) (fun _ l => Permutation_refl l).

Definition reverse_order : RowOrder :=
  mkRowOrder (fun _ l => rev l) (fun _ l => Permutation_rev l).



(** *** Sample data *)

Definition ex_books : DataFrame Books.row :=
  [ Books.mk (Some "A") (Some "Title1") (Some "Auth1") [Some "Pub1"];
    Books.mk (Some "B") (Some "Title2") (Some "Auth2") [None];
    Books.mk (Some "C") (Some "Title3") None [Some "Pub3"] ].

Definition ex_ratings : DataFrame Ratings.row :=
  [ Ratings.mk (Some 1) (Some "A") (Some 5);
    Ratings.mk (Some 2) (Some "A") (Some 7);
    Ratings.mk (Some 1) (Some "B") (Some 10);
    Ratings.mk (Some 2) (Some "B") (Some 11);
    Ratings.mk (Some 3) (Some "C") (Some 4);
    Ratings.mk (Some 3) (Some "D") (Some 8) ].

Definition ex_users : DataFrame Users.row :=
  [ Users.mk (Some 1) (Some "london") (Some 30) [];
    Users.mk (Some 2) (Some "paris") None [];
    Users.mk (Some 3) (Some "london") (Some 25) [] ].

Definition ex_loaded : BooksPipeline :=
  fst (load_bronze (inr ex_books) (inr ex_ratings) (inr ex_users) init).

Definition ex_silver : BooksPipeline := fst (transform_silver ex_loaded).

Definition ex_gold : BooksPipeline := fst (aggregate_gold ex_silver).

Definition ex_gold_rows : DataFrame Gold.row :=
  join_inner String.eqb BookStats.ISBN Books.ISBN gold_row
    (book_stats (filter_where valid_rating ex_ratings))
    (dropna books_subset_nulls ex_books).

(** Two book rows that share one ISBN, and one author with one book that
    was rated twice. *)
Definition dup_books : DataFrame Books.row :=
  [ Books.mk (Some "A") (Some "Title1") (Some "Auth1") [];
    Books.mk (Some "A") (Some "Title1 (reprint)") (Some "Auth1") [] ].

Definition dup_ratings : DataFrame Ratings.row :=
  [ Ratings.mk (Some 1) (Some "A") (Some 5) ].

Definition dup_loaded : BooksPipeline :=
  fst (load_bronze (inr dup_books) (inr dup_ratings) (inr []) init).

Definition dup_gold : BooksPipeline :=
  fst (aggregate_gold (fst (transform_silver dup_loaded))).

Definition dup_gold_rows : DataFrame Gold.row :=
  join_inner String.eqb BookStats.ISBN Books.ISBN gold_row
    (book_stats (filter_where valid_rating dup_ratings))
    (dropna books_subset_nulls dup_books).








(** *** Vocabulary of the further properties *)

(** A book row whose ISBN occurs among the rating rows [rs]. *)
Definition rated (rs : list Ratings.row) (b : Books.row) : bool :=
  match Books.ISBN b with
  | Some i => existsb (fun r => has_isbn i (Ratings.ISBN r)) rs
  | None => false
  end.


(** A rating row whose [User-ID] is carried by one of the user rows [us]. *)
Definition known_user (us : list Users.row) (r : Ratings.row) : bool :=
  existsb (fun u => sql_key_match Z.eqb (Users.User_ID u) (Ratings.User_ID r)) us.

(** The calls that the script at the end of [main.py] makes on the
    pipeline object, in its order; the plotting calls, which only read the
    table they are handed, are left out. *)
Definition script_calls (books_csv : PyError + DataFrame Books.row)
    (ratings_csv : PyError + DataFrame Ratings.row)
    (users_csv : PyError + DataFrame Users.row)
    (o1 o2 o3 o4 : RowOrder)
  : list call :=
  [ Load_bronze books_csv ratings_csv users_csv;
    Transform_silver;
    Aggregate_gold;
    Get_top_books o1 10;
    Get_top_authors o2 10;
    Get_top_locations o3 10;
    Get_top_ages o4 10 ].

(** An object on which only [books] was assigned. *)
Definition ex_books_only : BooksPipeline :=
  mkPipeline (Some ex_books) None None None None None None.

(** The sample ratings in another order. *)
Definition ex_ratings_rev : DataFrame Ratings.row := rev ex_ratings.

Definition ex_loaded_rev : BooksPipeline :=
  fst (load_bronze (inr ex_books) (inr ex_ratings_rev) (inr ex_users) init).

(** The silver users and the silver ratings of the sample data. *)
Definition ex_silver_users : DataFrame Users.row :=
  dropna users_all_nulls ex_users.

Definition ex_silver_ratings : DataFrame Ratings.row :=
  filter_where valid_rating ex_ratings.

(* ================================================================== *)
(** ** Facts about the DataFrame operations *)
(* ================================================================== *)

Section SortFacts.
Variables (R : Type) (o : RowOrder) (metric : R -> Z).

Lemma insert_desc_perm (x : R) (l : list R) :
  Permutation (x :: l) (insert_desc metric x l).
Proof.
  induction l as [|y l IH]; simpl.
  - apply Permutation_refl.
  - destruct (metric y <=? metric x).
    + apply Permutation_refl.
    + eapply perm_trans; [apply perm_swap|]. now apply perm_skip.
Qed.

Lemma insertion_sort_perm (l : list R) :
  Permutation l (fold_right (insert_desc metric) [] l).
Proof.
  induction l as [|x l IH]; simpl.
  - constructor.
  - eapply perm_trans; [apply perm_skip, IH|]. apply insert_desc_perm.
Qed.

Lemma orderBy_desc_perm (df : list R) :
  Permutation df (orderBy_desc o metric df).
Proof.
  unfold orderBy_desc.
  eapply perm_trans; [apply arrange_perm | apply insertion_sort_perm].
Qed.

Lemma orderBy_desc_length (df : list R) :
  length (orderBy_desc o metric df) = length df.
Proof. symmetry. apply Permutation_length, orderBy_desc_perm. Qed.

Lemma insert_desc_sorted (x : R) (l : list R) :
  sorted_desc metric l -> sorted_desc metric (insert_desc metric x l).
Proof.
  unfold sorted_desc.
  induction l as [|y l IH]; simpl; intros Hs.
  - constructor; [constructor | constructor].
  - apply StronglySorted_inv in Hs. destruct Hs as [Hl Hy].
    destruct (metric y <=? metric x) eqn:E.
    + apply Z.leb_le in E.
      constructor.
      * constructor; assumption.
      * constructor; [exact E|].
        eapply Forall_impl; [|exact Hy]. simpl; intros; lia.
    + apply Z.leb_gt in E.
      constructor.
      * apply IH, Hl.
      * eapply Permutation_Forall; [apply insert_desc_perm|].
        constructor; [lia | exact Hy].
Qed.

Lemma orderBy_desc_sorted (df : list R) :
  sorted_desc metric (orderBy_desc o metric df).
Proof.
  unfold orderBy_desc.
  induction (arrange o df) as [|x l IH]; simpl.
  - constructor.
  - apply insert_desc_sorted, IH.
Qed.

Lemma sorted_desc_firstn (n : nat) (l : list R) :
  sorted_desc metric l -> sorted_desc metric (firstn n l).
Proof.
  unfold sorted_desc. revert l.
  induction n as [|n IH]; intros [|x l] Hs; simpl; try constructor.
  - apply IH. now apply StronglySorted_inv in Hs.
  - apply StronglySorted_inv in Hs. destruct Hs as [_ Hx].
    rewrite Forall_forall in *. intros y Hy. apply Hx.
    rewrite <- (firstn_skipn n l). apply in_or_app. now left.
Qed.

End SortFacts.

Section GroupFacts.
Variables (K : Type) (eqb : K -> K -> bool).
Hypothesis eqb_spec : forall a b, eqb a b = true <-> a = b.

Lemma existsb_eqb_In (k : K) (seen : list K) :
  existsb (eqb k) seen = true <-> In k seen.
Proof.
  rewrite existsb_exists. split.
  - intros [x [Hx E]]. apply eqb_spec in E. now subst.
  - intros H. exists k. split; [exact H | now apply eqb_spec].
Qed.

Lemma distinct_from_In (l seen : list K) (k : K) :
  In k (distinct_from eqb seen l) <-> In k l /\ ~ In k seen.
Proof.
  revert seen. induction l as [|x l IH]; intros seen; simpl.
  - tauto.
  - destruct (existsb (eqb x) seen) eqn:E.
    + apply existsb_eqb_In in E. rewrite IH. split.
      * intros [H1 H2]. tauto.
      * intros [[H1|H1] H2]; [subst; contradiction | tauto].
    + assert (Hx : ~ In x seen).
      { intros H. apply existsb_eqb_In in H. congruence. }
      simpl. rewrite IH. simpl. split.
      * intros [H|[H1 H2]]; [subst; tauto | tauto].
      * intros [[H1|H1] H2]; [now left|].
        destruct (eqb x k) eqn:Exk.
        -- apply eqb_spec in Exk. now left.
        -- right. split; [exact H1|]. intros [H|H]; [|contradiction].
           apply eqb_spec in H. congruence.
Qed.

Lemma distinct_from_NoDup (l seen : list K) :
  NoDup (distinct_from eqb seen l).
Proof.
  revert seen. induction l as [|x l IH]; intros seen; simpl.
  - constructor.
  - destruct (existsb (eqb x) seen); [apply IH|].
    constructor; [|apply IH].
    rewrite distinct_from_In. simpl. tauto.
Qed.

Lemma distinct_In (l : list K) (k : K) : In k (distinct eqb l) <-> In k l.
Proof. unfold distinct. rewrite distinct_from_In. simpl. tauto. Qed.

Lemma distinct_NoDup (l : list K) : NoDup (distinct eqb l).
Proof. apply distinct_from_NoDup. Qed.

Lemma filter_eqb_notin (k : K) (l : list K) :
  ~ In k l -> filter (fun x => eqb x k) l = [].
Proof.
  induction l as [|x l IH]; simpl; intros H; [reflexivity|].
  destruct (eqb x k) eqn:E.
  - apply eqb_spec in E. tauto.
  - apply IH. tauto.
Qed.

Lemma filter_eqb_NoDup (k : K) (l : list K) :
  NoDup l -> In k l -> filter (fun x => eqb x k) l = [k].
Proof.
  induction 1 as [|x l Hx Hl IH]; simpl; [tauto|].
  intros [E|H].
  - subst x. replace (eqb k k) with true by (symmetry; now apply eqb_spec).
    f_equal. now apply filter_eqb_notin.
  - destruct (eqb x k) eqn:E.
    + apply eqb_spec in E. subst. contradiction.
    + now apply IH.
Qed.

Section GroupBy.
Variables (R : Type) (key : R -> K).

(** A group exists for exactly the keys that occur, and holds the rows
    with that key. *)
Lemma groupBy_In (df : list R) (k : K) (rows : list R) :
  In (k, rows) (groupBy eqb key df) <->
  In k (map key df) /\ rows = filter (fun r => eqb (key r) k) df.
Proof.
  unfold groupBy. rewrite in_map_iff. split.
  - intros [k' [E H]]. inversion E; subst. split; [|reflexivity].
    now apply (proj1 (distinct_In _ _)) in H.
  - intros [H E]. exists k. split; [rewrite E; reflexivity|].
    now apply (proj2 (distinct_In _ _)).
Qed.

Lemma groupBy_nonempty (df : list R) (k : K) (rows : list R) :
  In (k, rows) (groupBy eqb key df) -> rows <> [].
Proof.
  rewrite groupBy_In. intros [H E]. subst rows.
  apply in_map_iff in H. destruct H as [r [Hk Hr]].
  intros Hnil.
  assert (Hin : In r (filter (fun r => eqb (key r) k) df)).
  { apply filter_In. split; [exact Hr | now apply eqb_spec]. }
  rewrite Hnil in Hin. contradiction.
Qed.

(** The groups whose key is [k]: one if [k] occurs, none otherwise. *)
Lemma groupBy_filter_key (df : list R) (k : K) :
  filter (fun g => eqb (fst g) k) (groupBy eqb key df) =
  if existsb (fun r => eqb (key r) k) df
  then [(k, filter (fun r => eqb (key r) k) df)]
  else [].
Proof.
  unfold groupBy.
  assert (Hf : forall l : list K,
             filter (fun g : K * list R => eqb (fst g) k)
               (map (fun k0 => (k0, filter (fun r => eqb (key r) k0) df)) l)
             = map (fun k0 => (k0, filter (fun r => eqb (key r) k0) df))
                 (filter (fun x => eqb x k) l)).
  { induction l as [|x l IH]; simpl; [reflexivity|].
    destruct (eqb x k); simpl; now rewrite IH. }
  rewrite Hf.
  destruct (existsb (fun r => eqb (key r) k) df) eqn:E.
  - rewrite filter_eqb_NoDup; [reflexivity | apply distinct_NoDup |].
    apply (proj2 (distinct_In _ _)). apply existsb_exists in E.
    destruct E as [r [Hr Ek]]. apply eqb_spec in Ek. subst k.
    now apply in_map.
  - rewrite filter_eqb_notin; [reflexivity|].
    rewrite distinct_In, in_map_iff. intros [r [Hk Hr]].
    assert (existsb (fun r => eqb (key r) k) df = true).
    { apply existsb_exists. exists r. split; [exact Hr | now apply eqb_spec]. }
    congruence.
Qed.
End GroupBy.
End GroupFacts.

Lemma group_key_eqb_spec {K} (eqb : K -> K -> bool) :
  (forall a b, eqb a b = true <-> a = b) ->
  forall a b, group_key_eqb eqb a b = true <-> a = b.
Proof.
  intros H [x|] [y|]; simpl; try (split; congruence).
  rewrite H. split; congruence.
Qed.

Lemma string_key_spec (a b : option string) :
  group_key_eqb String.eqb a b = true <-> a = b.
Proof. apply group_key_eqb_spec, String.eqb_eq. Qed.

Lemma Z_key_spec (a b : option Z) :
  group_key_eqb Z.eqb a b = true <-> a = b.
Proof. apply group_key_eqb_spec, Z.eqb_eq. Qed.

Lemma filter_flat_map {A B} (p : B -> bool) (f : A -> list B) (l : list A) :
  filter p (flat_map f l) = flat_map (fun x => filter p (f x)) l.
Proof.
  induction l as [|x l IH]; simpl; [reflexivity|].
  now rewrite filter_app, IH.
Qed.

Lemma filter_map_comm {A B} (p : B -> bool) (f : A -> B) (l : list A) :
  filter p (map f l) = map f (filter (fun x => p (f x)) l).
Proof.
  induction l as [|x l IH]; simpl; [reflexivity|].
  destruct (p (f x)); simpl; now rewrite IH.
Qed.

Lemma filter_all {A} (p : A -> bool) (l : list A) :
  (forall x, In x l -> p x = true) -> filter p l = l.
Proof.
  induction l as [|x l IH]; simpl; intros H; [reflexivity|].
  rewrite (H x) by now left. f_equal. apply IH. intros; apply H; now right.
Qed.

Lemma filter_none {A} (p : A -> bool) (l : list A) :
  (forall x, In x l -> p x = false) -> filter p l = [].
Proof.
  induction l as [|x l IH]; simpl; intros H; [reflexivity|].
  rewrite (H x) by now left. apply IH. intros; apply H; now right.
Qed.

Lemma flat_map_length_sum {A B} (f : A -> list B) (l : list A) :
  length (flat_map f l) = nat_sum (map (fun x => length (f x)) l).
Proof.
  induction l as [|x l IH]; simpl; [reflexivity|].
  now rewrite length_app, IH.
Qed.

Section AggregateFacts.
Variables (R : Type) (cell : R -> option Z).

Lemma avg_fold (rows : list R) (s n : Z) :
  fold_left (avg_step cell) rows (s, n) =
  (s + Zsum (cell_values cell rows), n + Z.of_nat (length (cell_values cell rows))).
Proof.
  revert s n. induction rows as [|r rows IH]; intros s n; simpl.
  - f_equal; lia.
  - assert (E : avg_step cell (s, n) r =
                match cell r with
                | Some v => (s + v, n + 1)
                | None => (s, n)
                end)
      by (unfold avg_step; destruct (cell r); reflexivity).
    rewrite E. unfold cell_values. cbn [flat_map]. fold (cell_values cell rows).
    destruct (cell r) as [v|]; rewrite IH; cbn [app]; [|reflexivity].
    unfold Zsum. cbn [fold_right length]. f_equal; lia.
Qed.

Lemma avg_values (rows : list R) :
  avg cell rows =
  match cell_values cell rows with
  | [] => None
  | vs => Some (nearest_double
                  (Qmake (Zsum vs) (Z.to_pos (Z.of_nat (length vs)))))
  end.
Proof.
  unfold avg. rewrite avg_fold. simpl.
  destruct (cell_values cell rows) as [|v vs]; [reflexivity|].
  destruct (Z.of_nat (length (v :: vs)) =? 0) eqn:E; [|reflexivity].
  apply Z.eqb_eq in E. simpl length in E. lia.
Qed.

Lemma count_values (rows : list R) :
  count cell rows = Z.of_nat (length (cell_values cell rows)).
Proof.
  unfold count, cell_values. f_equal.
  induction rows as [|r rows IH]; simpl; [reflexivity|].
  destruct (cell r); simpl; now rewrite IH.
Qed.
End AggregateFacts.

Lemma count_Some_length {R} (f : R -> Z) (rows : list R) :
  count (fun x => Some (f x)) rows = Z.of_nat (length rows).
Proof.
  unfold count. f_equal. f_equal. apply filter_all. reflexivity.
Qed.

Lemma Qmake_mean (l : list Z) :
  l <> [] ->
  (Qmake (Zsum l) (Z.to_pos (Z.of_nat (length l))) == mean l)%Q.
Proof.
  intros Hl. unfold mean.
  assert (Hn : 0 < Z.of_nat (length l)) by (destruct l; [congruence | simpl length; lia]).
  destruct (Z.of_nat (length l)) as [|p|p] eqn:E; try lia.
  unfold Qeq, Qdiv, Qmult, Qinv, inject_Z. simpl. lia.
Qed.

Lemma Zsum_bounds (l : list Z) :
  Forall (fun v => 0 <= v <= 10) l ->
  0 <= Zsum l <= 10 * Z.of_nat (length l).
Proof.
  induction 1 as [|v l Hv Hl IH]; simpl Zsum; simpl length; lia.
Qed.

(** *** The rounding of [avg] *)

Lemma nearest_even_error (n d : Z) :
  0 < d -> 2 * Z.abs (nearest_even n d * d - n) <= d.
Proof.
  intros Hd. unfold nearest_even.
  pose proof (Z.div_mod n d ltac:(lia)) as Hdm.
  pose proof (Z.mod_pos_bound n d Hd) as Hr.
  destruct (2 * (n mod d) <? d) eqn:E1; [apply Z.ltb_lt in E1; nia|].
  apply Z.ltb_ge in E1.
  destruct (d <? 2 * (n mod d)) eqn:E2; [apply Z.ltb_lt in E2; nia|].
  apply Z.ltb_ge in E2.
  destruct (Z.even (n / d)); nia.
Qed.

Lemma nearest_even_le (n d K : Z) :
  0 < d -> n <= K * d -> nearest_even n d <= K.
Proof.
  intros Hd Hn. unfold nearest_even.
  pose proof (Z.div_mod n d ltac:(lia)) as Hdm.
  pose proof (Z.mod_pos_bound n d Hd) as Hr.
  assert (Hq : n / d <= K) by (apply Z.div_le_upper_bound; lia).
  destruct (2 * (n mod d) <? d) eqn:E1; [exact Hq|].
  apply Z.ltb_ge in E1.
  assert (n / d < K) by nia.
  destruct (d <? 2 * (n mod d)); [lia|].
  destruct (Z.even (n / d)); lia.
Qed.

Lemma nearest_even_nonneg (n d : Z) :
  0 < d -> 0 <= n -> 0 <= nearest_even n d.
Proof.
  intros Hd Hn. unfold nearest_even.
  assert (Hq : 0 <= n / d) by (apply Z.div_pos; lia).
  destruct (2 * (n mod d) <? d); [exact Hq|].
  destruct (d <? 2 * (n mod d)); [lia|].
  destruct (Z.even (n / d)); lia.
Qed.

Lemma scaled_pos (a c e : Z) :
  0 < a -> 0 < c -> 0 < fst (scaled a c e) /\ 0 < snd (scaled a c e).
Proof.
  intros Ha Hc. unfold scaled. destruct (0 <=? e) eqn:E; simpl.
  - apply Z.leb_le in E. pose proof (Z.pow_pos_nonneg 2 e). nia.
  - apply Z.leb_gt in E. pose proof (Z.pow_pos_nonneg 2 (- e)). nia.
Qed.

(** The scaled ratio has at least 53 bits. *)
Lemma binade_lower (a c : Z) :
  0 < a -> 0 < c ->
  2 ^ 52 * snd (scaled a c (binade a c)) <= fst (scaled a c (binade a c)).
Proof.
  intros Ha Hc. unfold binade.
  set (e0 := Z.log2 a - Z.log2 c - 52).
  destruct (2 ^ 52 * snd (scaled a c e0) <=? fst (scaled a c e0)) eqn:E;
    [now apply Z.leb_le in E|].
  clear E.
  destruct (Z.log2_spec a Ha) as [Hla _].
  destruct (Z.log2_spec c Hc) as [_ Hlc].
  pose proof (Z.log2_nonneg a) as Hna.
  pose proof (Z.log2_nonneg c) as Hnc.
  unfold scaled. destruct (0 <=? e0 - 1) eqn:E; cbn [fst snd].
  - apply Z.leb_le in E.
    assert (Hp : 2 ^ 52 * 2 ^ (e0 - 1) * 2 ^ Z.succ (Z.log2 c) = 2 ^ Z.log2 a).
    { rewrite <- !Z.pow_add_r by lia. f_equal. unfold e0. lia. }
    pose proof (Z.pow_pos_nonneg 2 (e0 - 1) ltac:(lia) ltac:(lia)) as HX.
    set (X := 2 ^ (e0 - 1)) in *. set (Y := 2 ^ Z.succ (Z.log2 c)) in *.
    assert (H1 : X * c <= X * Y) by (apply Z.mul_le_mono_nonneg_l; lia).
    change (2 ^ 52) with 4503599627370496 in *. lia.
  - apply Z.leb_gt in E.
    assert (Hp : 2 ^ Z.log2 a * 2 ^ (- (e0 - 1)) = 2 ^ 52 * 2 ^ Z.succ (Z.log2 c)).
    { rewrite <- !Z.pow_add_r by lia. f_equal. unfold e0. lia. }
    pose proof (Z.pow_pos_nonneg 2 (- (e0 - 1)) ltac:(lia) ltac:(lia)) as HX.
    set (X := 2 ^ (- (e0 - 1))) in *. set (Y := 2 ^ Z.succ (Z.log2 c)) in *.
    assert (H1 : 2 ^ Z.log2 a * X <= a * X) by (apply Z.mul_le_mono_nonneg_r; lia).
    change (2 ^ 52) with 4503599627370496 in *. lia.
Qed.

Lemma times_pow2_nonneg (m e : Z) : 0 <= m -> (0 <= times_pow2 m e)%Q.
Proof.
  intros Hm. unfold times_pow2. destruct (0 <=? e) eqn:E.
  - apply Z.leb_le in E. unfold Qle, inject_Z. cbn [Qnum Qden].
    pose proof (Z.pow_pos_nonneg 2 e ltac:(lia) E). nia.
  - unfold Qle. cbn [Qnum Qden]. lia.
Qed.

(** Rounding keeps a ratio of [0, 10] inside [0, 10]. *)
Lemma nearest_double_bounds (s : Z) (c : positive) :
  0 <= s <= 10 * Z.pos c -> (0 <= nearest_double (s # c) <= 10)%Q.
Proof.
  intros Hs. unfold nearest_double. cbn [Qnum Qden].
  destruct (s =? 0) eqn:E0; [split; discriminate|].
  apply Z.eqb_neq in E0.
  assert (Ha : 0 < s) by lia.
  rewrite (Z.abs_eq s) by lia. rewrite (Z.sgn_pos s Ha), Z.mul_1_l.
  set (e := binade s (Z.pos c)).
  pose proof (@binade_lower s (Z.pos c) Ha ltac:(lia)) as Hlow. fold e in Hlow.
  destruct (@scaled_pos s (Z.pos c) e Ha ltac:(lia)) as [Hn Hd].
  split.
  - apply times_pow2_nonneg, nearest_even_nonneg; lia.
  - unfold times_pow2, scaled in *.
    destruct (0 <=? e) eqn:E; cbn [fst snd] in *.
    + apply Z.leb_le in E.
      pose proof (Z.pow_pos_nonneg 2 e ltac:(lia) E) as HX.
      set (X := 2 ^ e) in *. change (2 ^ 52) with 4503599627370496 in *.
      exfalso. nia.
    + apply Z.leb_gt in E.
      pose proof (Z.pow_pos_nonneg 2 (- e) ltac:(lia) ltac:(lia)) as HX.
      set (X := 2 ^ (- e)) in *.
      assert (Hm : nearest_even (s * X) (Z.pos c) <= 10 * X)
        by (apply nearest_even_le; nia).
      unfold Qle. cbn [Qnum Qden]. rewrite Z2Pos.id by exact HX. lia.
Qed.

(** Rounding moves a positive ratio by at most the fraction 2^-53 of it. *)
Lemma nearest_double_error (s : Z) (c : positive) :
  0 <= s -> within_rounding (nearest_double (s # c)) (s # c).
Proof.
  intros Hs. unfold within_rounding, nearest_double. cbn [Qnum Qden].
  destruct (s =? 0) eqn:E0.
  - apply Z.eqb_eq in E0. subst s. unfold Qle, Qabs, Qminus, Qplus, Qopp, Qmult.
    cbn. lia.
  - apply Z.eqb_neq in E0.
    assert (Ha : 0 < s) by lia.
    rewrite (Z.abs_eq s) by lia. rewrite (Z.sgn_pos s Ha), Z.mul_1_l.
    set (e := binade s (Z.pos c)).
    pose proof (@binade_lower s (Z.pos c) Ha ltac:(lia)) as Hlow. fold e in Hlow.
    destruct (@scaled_pos s (Z.pos c) e Ha ltac:(lia)) as [Hn Hd].
    pose proof (@nearest_even_error (fst (scaled s (Z.pos c) e))
                  (snd (scaled s (Z.pos c) e)) Hd) as Herr.
    set (m := nearest_even (fst (scaled s (Z.pos c) e))
                (snd (scaled s (Z.pos c) e))) in *.
    unfold times_pow2, scaled in *.
    change (2 ^ 52) with 4503599627370496 in *.
    destruct (0 <=? e) eqn:E; cbn [fst snd] in *.
    + apply Z.leb_le in E.
      pose proof (Z.pow_pos_nonneg 2 e ltac:(lia) E) as HX.
      set (X := 2 ^ e) in *.
      unfold Qle, Qabs, Qminus, Qplus, Qopp, Qmult, inject_Z.
      cbn [Qnum Qden]. rewrite !Pos2Z.inj_mul.
      set (C := Z.pos c) in *.
      replace (m * X * C + - s * 1) with (m * (C * X) - s) by ring.
      assert (Hk : 9007199254740992 * Z.abs (m * (C * X) - s) <= s) by lia.
      change (Z.pos 9007199254740992) with 9007199254740992.
      change (Z.pos 1) with 1. nia.
    + apply Z.leb_gt in E.
      pose proof (Z.pow_pos_nonneg 2 (- e) ltac:(lia) ltac:(lia)) as HX.
      set (X := 2 ^ (- e)) in *.
      unfold Qle, Qabs, Qminus, Qplus, Qopp, Qmult.
      cbn [Qnum Qden]. rewrite !Pos2Z.inj_mul, Z2Pos.id by exact HX.
      set (C := Z.pos c) in *.
      replace (m * C + - s * X) with (m * C - s * X) by ring.
      assert (Hk : 9007199254740992 * Z.abs (m * C - s * X) <= s * X) by lia.
      change (Z.pos 9007199254740992) with 9007199254740992.
      change (Z.pos 1) with 1. nia.
Qed.

Lemma within_rounding_Qeq (q m m' : Q) :
  (m == m')%Q -> within_rounding q m -> within_rounding q m'.
Proof.
  unfold within_rounding. intros E H. now rewrite <- E.
Qed.

(** The double that [avg] returns for values of [0, 10]: within rounding
    of their mean, and inside [0, 10]. *)
Lemma nearest_double_mean (l : list Z) :
  l <> [] -> Forall (fun v => 0 <= v <= 10) l ->
  within_rounding
    (nearest_double (Qmake (Zsum l) (Z.to_pos (Z.of_nat (length l)))))
    (mean l)
  /\ (0 <= nearest_double (Qmake (Zsum l) (Z.to_pos (Z.of_nat (length l))))
      <= 10)%Q.
Proof.
  intros Hl Hb. pose proof (Zsum_bounds Hb) as Hs.
  assert (Hn : 0 < Z.of_nat (length l))
    by (destruct l; [congruence | simpl length; lia]).
  split.
  - apply (within_rounding_Qeq (Qmake_mean Hl)).
    apply nearest_double_error. lia.
  - apply nearest_double_bounds. rewrite Z2Pos.id by exact Hn. lia.
Qed.
(* ================================================================== *)
(** ** Running the stages *)
(* ================================================================== *)

Lemma load_bronze_returns (self : BooksPipeline) b r u :
  returns (load_bronze (inr b) (inr r) (inr u)) self
    (mkPipeline (Some b) (Some r) (Some u) (books_silver self)
       (ratings_silver self) (users_silver self) (gold_books self)) tt.
Proof. reflexivity. Qed.

Lemma transform_silver_returns (self : BooksPipeline) b r u :
  books self = Some b -> ratings self = Some r -> users self = Some u ->
  returns transform_silver self
    (mkPipeline (Some b) (Some r) (Some u)
       (Some (dropna books_subset_nulls b))
       (Some (filter_where valid_rating r))
       (Some (dropna users_all_nulls u))
       (gold_books self)) tt.
Proof.
  destruct self; simpl; intros; subst. reflexivity.
Qed.

Lemma aggregate_gold_returns (self : BooksPipeline) rs bs :
  ratings_silver self = Some rs -> books_silver self = Some bs ->
  returns aggregate_gold self
    (mkPipeline (books self) (ratings self) (users self) (Some bs) (Some rs)
       (users_silver self)
       (Some (join_inner String.eqb BookStats.ISBN Books.ISBN gold_row
                (book_stats rs) bs))) tt.
Proof.
  destruct self; simpl; intros; subst. reflexivity.
Qed.

Lemma limit_in_range {R} (n : Z) (df : DataFrame R) :
  0 <= n <= int_max -> limit n df = inr (firstn (Z.to_nat n) df).
Proof.
  intros Hn. unfold limit, int_min, int_max in *.
  replace (n <? -2147483648) with false by (symmetry; apply Z.ltb_ge; lia).
  replace (2147483647 <? n) with false by (symmetry; apply Z.ltb_ge; lia).
  replace (n <? 0) with false by (symmetry; apply Z.ltb_ge; lia).
  reflexivity.
Qed.

Lemma limit_or_raise_returns {R} (n : Z) (df : DataFrame R) self :
  0 <= n <= int_max ->
  limit_or_raise n df self = (self, inr (firstn (Z.to_nat n) df)).
Proof.
  intros Hn. unfold limit_or_raise. now rewrite limit_in_range.
Qed.

Lemma valid_rating_in_range (r : Ratings.row) :
  valid_rating r = Some true <-> in_range r.
Proof.
  unfold valid_rating, in_range, sql_ge, sql_le.
  destruct (Ratings.Book_Rating r) as [v|]; simpl.
  - split.
    + intros H. exists v. split; [reflexivity|].
      destruct (0 <=? v) eqn:E1; destruct (v <=? 10) eqn:E2;
        simpl in H; try discriminate.
      apply Z.leb_le in E1, E2. lia.
    + intros [w [Hw Hb]]. inversion Hw; subst w.
      replace (0 <=? v) with true by (symmetry; apply Z.leb_le; lia).
      replace (v <=? 10) with true by (symmetry; apply Z.leb_le; lia).
      reflexivity.
  - split; [discriminate | intros [w [Hw _]]; discriminate].
Qed.

Lemma filter_where_In {R} (cond : R -> option bool) (df : list R) (x : R) :
  In x (filter_where cond df) <-> In x df /\ cond x = Some true.
Proof.
  unfold filter_where. rewrite filter_In.
  destruct (cond x) as [[|]|]; split; intros [H1 H2]; split;
    try assumption; try reflexivity; discriminate.
Qed.

Lemma dropna_In {R} (nulls : R -> list bool) (df : list R) (x : R) :
  In x (dropna nulls df) <-> In x df /\ Forall (fun b => b = false) (nulls x).
Proof.
  unfold dropna. rewrite filter_In, negb_true_iff.
  assert (H : forall l, existsb (fun b : bool => b) l = false
                        <-> Forall (fun b => b = false) l).
  { induction l as [|b l IH]; simpl.
    - split; [constructor | reflexivity].
    - rewrite orb_false_iff, IH. split.
      + intros [H1 H2]. now constructor.
      + intros H. inversion H; subst. tauto. }
  now rewrite H.
Qed.

Lemma is_null_false {A} (c : option A) : is_null c = false <-> c <> None.
Proof. destruct c; simpl; split; congruence. Qed.

(* ================================================================== *)
(** ** The cleaning stage *)
(* ================================================================== *)

(** C2.  Once the bronze data is loaded, [transform_silver] returns and
    every row of the silver ratings has a rating value with
    [0 <= value <= 10]; the silver rows are bronze rows, a bronze row in
    range is kept, and a bronze row out of range (or with a NULL rating)
    is absent from silver. *)
Theorem silver_ratings_in_range (self : BooksPipeline) b r u :
  books self = Some b -> ratings self = Some r -> users self = Some u ->
  exists self' silver,
    returns transform_silver self self' tt
    /\ ratings_silver self' = Some silver
    /\ (forall x, In x silver -> in_range x)
    /\ (forall x, In x silver -> In x r)
    /\ (forall x, In x r -> in_range x -> In x silver)
    /\ (forall x, In x r -> ~ in_range x -> ~ In x silver).
Proof.
  intros Hb Hr Hu.
  eexists. exists (filter_where valid_rating r).
  split; [apply (transform_silver_returns self Hb Hr Hu)|].
  split; [reflexivity|].
  repeat split; intros x.
  - rewrite filter_where_In, valid_rating_in_range. tauto.
  - rewrite filter_where_In. tauto.
  - rewrite filter_where_In, valid_rating_in_range. tauto.
  - rewrite filter_where_In, valid_rating_in_range. tauto.
Qed.

Lemma silver_ratings_in_range_witness :
  exists self' silver,
    returns transform_silver ex_loaded self' tt
    /\ ratings_silver self' = Some silver
    /\ (forall x, In x silver -> in_range x)
    /\ (forall x, In x silver -> In x ex_ratings)
    /\ (forall x, In x ex_ratings -> in_range x -> In x silver)
    /\ (forall x, In x ex_ratings -> ~ in_range x -> ~ In x silver).
Proof.
  apply (@silver_ratings_in_range ex_loaded ex_books ex_ratings ex_users);
    reflexivity.
Defined.

(** C6.  [transform_silver] keeps a bronze book row exactly when its title
    and its author are both present; the ISBN and the remaining columns
    play no part, so a row with NULLs only there is kept. *)
Theorem silver_books_title_author (self : BooksPipeline) b r u :
  books self = Some b -> ratings self = Some r -> users self = Some u ->
  exists self' silver,
    returns transform_silver self self' tt
    /\ books_silver self' = Some silver
    /\ (forall x, In x silver <->
                  In x b /\ Books.Book_Title x <> None
                  /\ Books.Book_Author x <> None)
    /\ (forall isbn t a rest,
          In (Books.mk isbn (Some t) (Some a) rest) b ->
          In (Books.mk isbn (Some t) (Some a) rest) silver).
Proof.
  intros Hb Hr Hu.
  eexists. exists (dropna books_subset_nulls b).
  split; [apply (transform_silver_returns self Hb Hr Hu)|].
  split; [reflexivity|].
  assert (H : forall x, In x (dropna books_subset_nulls b) <->
                        In x b /\ Books.Book_Title x <> None
                        /\ Books.Book_Author x <> None).
  { intros x. rewrite dropna_In. unfold books_subset_nulls.
    rewrite <- !is_null_false. split.
    - intros [H1 H2]. inversion H2 as [|? ? Ht H3]; subst.
      inversion H3; subst. tauto.
    - intros [H1 [H2 H3]]. split; [exact H1|]. repeat constructor; assumption. }
  split; [exact H|].
  intros isbn t a rest Hin. apply H. simpl.
  repeat split; [exact Hin | discriminate | discriminate].
Qed.

Lemma silver_books_title_author_witness :
  exists self' silver,
    returns transform_silver ex_loaded self' tt
    /\ books_silver self' = Some silver
    /\ (forall x, In x silver <->
                  In x ex_books /\ Books.Book_Title x <> None
                  /\ Books.Book_Author x <> None)
    /\ (forall isbn t a rest,
          In (Books.mk isbn (Some t) (Some a) rest) ex_books ->
          In (Books.mk isbn (Some t) (Some a) rest) silver).
Proof.
  apply (@silver_books_title_author ex_loaded ex_books ex_ratings ex_users);
    reflexivity.
Defined.

(** C7.  [transform_silver] keeps a bronze user row exactly when none of
    its cells is NULL, whichever the column. *)
Theorem silver_users_no_null (self : BooksPipeline) b r u :
  books self = Some b -> ratings self = Some r -> users self = Some u ->
  exists self' silver,
    returns transform_silver self self' tt
    /\ users_silver self' = Some silver
    /\ (forall x, In x silver <-> In x u /\ no_null_cell x).
Proof.
  intros Hb Hr Hu.
  eexists. exists (dropna users_all_nulls u).
  split; [apply (transform_silver_returns self Hb Hr Hu)|].
  split; [reflexivity|].
  intros x. rewrite dropna_In. unfold users_all_nulls, no_null_cell.
  rewrite <- !is_null_false.
  assert (H : Forall (fun b0 => b0 = false) (map is_null (Users.other x))
              <-> Forall (fun c => c <> None) (Users.other x)).
  { rewrite Forall_map. split; intros H; eapply Forall_impl; try exact H;
      simpl; intros c; apply is_null_false. }
  rewrite <- H. split.
  - intros [H1 H2]. inversion H2 as [|? ? Ha H3]; subst.
    inversion H3 as [|? ? Hb' H4]; subst. inversion H4; subst. tauto.
  - intros [H1 [H2 [H3 [H4 H5]]]]. split; [exact H1|].
    repeat (constructor; [assumption|]). exact H5.
Qed.

Lemma silver_users_no_null_witness :
  exists self' silver,
    returns transform_silver ex_loaded self' tt
    /\ users_silver self' = Some silver
    /\ (forall x, In x silver <-> In x ex_users /\ no_null_cell x).
Proof.
  apply (@silver_users_no_null ex_loaded ex_books ex_ratings ex_users);
    reflexivity.
Defined.

(* ================================================================== *)
(** ** The ranking stage *)
(* ================================================================== *)

Lemma StronglySorted_app_inv {A} (R : A -> A -> Prop) (l1 l2 : list A) :
  StronglySorted R (l1 ++ l2) ->
  forall x y, In x l1 -> In y l2 -> R x y.
Proof.
  induction l1 as [|a l1 IH]; simpl; intros Hs x y Hx Hy; [contradiction|].
  apply StronglySorted_inv in Hs. destruct Hs as [Hs Ha].
  destruct Hx as [E|Hx].
  - subst a. rewrite Forall_forall in Ha. apply Ha.
    apply in_or_app. now right.
  - now apply IH.
Qed.

(** The rows [limit] keeps of a descending sort are the top rows. *)
Lemma firstn_orderBy_ranked {R} (o : RowOrder) (metric : R -> Z) (n : Z)
    (df : list R) :
  ranked metric n df (firstn (Z.to_nat n) (orderBy_desc o metric df)).
Proof.
  unfold ranked. split; [|split].
  - now rewrite length_firstn, orderBy_desc_length.
  - apply sorted_desc_firstn, orderBy_desc_sorted.
  - exists (skipn (Z.to_nat n) (orderBy_desc o metric df)). split.
    + rewrite firstn_skipn. apply orderBy_desc_perm.
    + intros x y Hx Hy.
      apply (StronglySorted_app_inv (R := fun a b => metric b <= metric a)
               (firstn (Z.to_nat n) (orderBy_desc o metric df))
               (skipn (Z.to_nat n) (orderBy_desc o metric df)));
        [|assumption|assumption].
      rewrite firstn_skipn. apply orderBy_desc_sorted.
Qed.

Lemma ranked_empty {R} (metric : R -> Z) (n : Z) (top : list R) :
  ranked metric n [] top -> top = [].
Proof.
  intros [Hlen _]. simpl in Hlen. rewrite Nat.min_0_r in Hlen.
  now apply length_zero_iff_nil.
Qed.

Lemma get_top_books_returns (o : RowOrder) (self : BooksPipeline) gold (n : Z) :
  gold_books self = Some gold -> 0 <= n <= int_max ->
  returns (get_top_books o n) self self
    (firstn (Z.to_nat n) (orderBy_desc o Gold.rating_count gold)).
Proof.
  intros Hg Hn. unfold returns, get_top_books, bind, getattr.
  rewrite Hg. now rewrite limit_or_raise_returns.
Qed.

Lemma get_top_authors_returns (o : RowOrder) (self : BooksPipeline) gold
    (n : Z) :
  gold_books self = Some gold -> 0 <= n <= int_max ->
  returns (get_top_authors o n) self self
    (firstn (Z.to_nat n)
       (orderBy_desc o AuthorCount.rating_count (author_counts gold))).
Proof.
  intros Hg Hn. unfold returns, get_top_authors, bind, getattr.
  rewrite Hg. now rewrite limit_or_raise_returns.
Qed.

Lemma get_top_locations_returns (o : RowOrder) (self : BooksPipeline) us rs
    (n : Z) :
  users_silver self = Some us -> ratings_silver self = Some rs ->
  0 <= n <= int_max ->
  returns (get_top_locations_of_users_who_rated_books o n) self self
    (firstn (Z.to_nat n)
       (orderBy_desc o LocationCount.user_count
          (location_counts (users_join_ratings us rs)))).
Proof.
  intros Hu Hr Hn.
  unfold returns, get_top_locations_of_users_who_rated_books, bind, getattr.
  rewrite Hu, Hr. now rewrite limit_or_raise_returns.
Qed.

Lemma get_top_ages_returns (o : RowOrder) (self : BooksPipeline) us rs
    (n : Z) :
  users_silver self = Some us -> ratings_silver self = Some rs ->
  0 <= n <= int_max ->
  returns (get_top_age_of_users_who_rated_books o n) self self
    (firstn (Z.to_nat n)
       (orderBy_desc o AgeCount.user_count
          (age_counts (users_join_ratings us rs)))).
Proof.
  intros Hu Hr Hn.
  unfold returns, get_top_age_of_users_who_rated_books, bind, getattr.
  rewrite Hu, Hr. now rewrite limit_or_raise_returns.
Qed.

(** A count outside the Java ints reaches no method of the engine. *)
Lemma limit_not_an_int {R} (n : Z) (df : DataFrame R) :
  n < int_min \/ int_max < n ->
  exists msg, limit n df = inl (Py4JError msg).
Proof.
  intros Hn. unfold limit.
  replace ((n <? int_min) || (int_max <? n)) with true; [eexists; reflexivity|].
  symmetry. apply orb_true_iff.
  destruct Hn; [left | right]; now apply Z.ltb_lt.
Qed.

(** C3 (as amended).  For a requested count [n] with [0 < n <= 2^31 - 1]
    and whatever the order in which the job delivers the rows, each top-N
    method returns, leaves the pipeline object as it was, and its result
    has [min n (number of input rows)] rows in descending order of the
    metric (and they are the largest rows of the input); an input without
    rows gives a result without rows. *)
Theorem top_n_ranked (n : Z) :
  0 < n <= int_max ->
  (forall o self gold,
      gold_books self = Some gold ->
      exists top,
        returns (get_top_books o n) self self top
        /\ ranked Gold.rating_count n gold top
        /\ (gold = [] -> top = []))
  /\ (forall o self gold,
      gold_books self = Some gold ->
      exists top,
        returns (get_top_authors o n) self self top
        /\ ranked AuthorCount.rating_count n (author_counts gold) top
        /\ (gold = [] -> top = []))
  /\ (forall o self us rs,
      users_silver self = Some us -> ratings_silver self = Some rs ->
      exists top,
        returns (get_top_locations_of_users_who_rated_books o n) self self top
        /\ ranked LocationCount.user_count n
             (location_counts (users_join_ratings us rs)) top
        /\ (users_join_ratings us rs = [] -> top = []))
  /\ (forall o self us rs,
      users_silver self = Some us -> ratings_silver self = Some rs ->
      exists top,
        returns (get_top_age_of_users_who_rated_books o n) self self top
        /\ ranked AgeCount.user_count n
             (age_counts (users_join_ratings us rs)) top
        /\ (users_join_ratings us rs = [] -> top = [])).
Proof.
  intros Hn. repeat split.
  - intros o self gold Hg. eexists. split; [|split].
    + apply (get_top_books_returns o self Hg). lia.
    + apply firstn_orderBy_ranked.
    + intros ->. apply (ranked_empty (firstn_orderBy_ranked o _ n [])).
  - intros o self gold Hg. eexists. split; [|split].
    + apply (get_top_authors_returns o self Hg). lia.
    + apply firstn_orderBy_ranked.
    + intros ->. apply (ranked_empty (firstn_orderBy_ranked o _ n [])).
  - intros o self us rs Hu Hr. eexists. split; [|split].
    + apply (get_top_locations_returns o self Hu Hr). lia.
    + apply firstn_orderBy_ranked.
    + intros ->. apply (ranked_empty (firstn_orderBy_ranked o _ n [])).
  - intros o self us rs Hu Hr. eexists. split; [|split].
    + apply (get_top_ages_returns o self Hu Hr). lia.
    + apply firstn_orderBy_ranked.
    + intros ->. apply (ranked_empty (firstn_orderBy_ranked o _ n [])).
Qed.

Lemma top_n_ranked_witness :
  exists top,
    returns (get_top_books reverse_order 1) ex_gold ex_gold top
    /\ ranked Gold.rating_count 1 ex_gold_rows top
    /\ (ex_gold_rows = [] -> top = []).
Proof.
  apply (proj1 (@top_n_ranked 1 ltac:(unfold int_max; lia))
           reverse_order ex_gold ex_gold_rows).
  reflexivity.
Defined.

(** C3 as stated fails for a count beyond the Java ints: [get_top_books]
    asked for 2^31 books returns no table, it raises. *)
Lemma top_n_ranked_counterexample :
  0 < 2147483648
  /\ (exists msg,
        get_top_books input_order 2147483648 ex_gold
        = (ex_gold, inl (Py4JError msg)))
  /\ ~ (exists top,
          returns (get_top_books input_order 2147483648) ex_gold ex_gold top).
Proof.
  split; [lia|]. split.
  - eexists. reflexivity.
  - intros [top H]. discriminate H.
Qed.

(** *** One result against the next *)










(* ================================================================== *)
(** ** The grouped views *)
(* ================================================================== *)

Lemma NoDup_firstn {A} (n : nat) (l : list A) : NoDup l -> NoDup (firstn n l).
Proof.
  intros H. rewrite <- (firstn_skipn n l) in H.
  now apply NoDup_app_remove_r in H.
Qed.

Lemma groupBy_keys {R K} (eqb : K -> K -> bool) (key : R -> K) (df : list R) :
  map fst (groupBy eqb key df) = distinct eqb (map key df).
Proof.
  unfold groupBy. rewrite map_map. simpl. apply map_id.
Qed.

Lemma count_all_present {R V} (cell : R -> option V) (rows : list R) :
  (forall r, In r rows -> cell r <> None) ->
  count cell rows = Z.of_nat (length rows).
Proof.
  intros H. unfold count. f_equal. f_equal. apply filter_all.
  intros r Hr. apply negb_true_iff, is_null_false. now apply H.
Qed.

(** Each author that occurs in gold has one row in the grouped view, and
    its count is the number of gold rows of that author. *)
Lemma author_counts_In (gold : list Gold.row) (a : AuthorCount.row) :
  In a (author_counts gold) <->
  In (AuthorCount.Book_Author a) (map Gold.Book_Author gold)
  /\ AuthorCount.rating_count a =
     Z.of_nat (length (gold_by_author (AuthorCount.Book_Author a) gold)).
Proof.
  unfold author_counts. rewrite in_map_iff. split.
  - intros [[k rows] [E H]]. subst a. simpl.
    apply (@groupBy_In _ _ string_key_spec) in H. destruct H as [Hk Hrows].
    split; [exact Hk|]. subst rows. apply count_Some_length.
  - intros [Hk Hc]. destruct a as [k c]. simpl in *.
    exists (k, gold_by_author k gold). split.
    + simpl. now rewrite count_Some_length, Hc.
    + apply (@groupBy_In _ _ string_key_spec). split; [exact Hk | reflexivity].
Qed.

Lemma author_counts_NoDup (gold : list Gold.row) :
  NoDup (map AuthorCount.Book_Author (author_counts gold)).
Proof.
  unfold author_counts. rewrite map_map. simpl.
  rewrite <- (map_map fst (fun k : option string => k)), map_id, groupBy_keys.
  apply (@distinct_NoDup _ _ string_key_spec).
Qed.

Lemma distinct_from_NoDup_id {K} (eqb : K -> K -> bool) :
  (forall a b, eqb a b = true <-> a = b) ->
  forall (l seen : list K),
    NoDup l -> (forall x, In x l -> ~ In x seen) ->
    distinct_from eqb seen l = l.
Proof.
  intros Hspec. induction l as [|x l IH]; intros seen Hnd Hdis; simpl;
    [reflexivity|].
  apply NoDup_cons_iff in Hnd. destruct Hnd as [Hx Hnd].
  destruct (existsb (eqb x) seen) eqn:E.
  - apply (proj1 (@existsb_eqb_In _ _ Hspec _ _)) in E. exfalso.
    apply (Hdis x); [now left | exact E].
  - f_equal. apply IH; [exact Hnd|].
    intros y Hy [<-|Hin]; [contradiction|].
    apply (Hdis y); [now right | exact Hin].
Qed.

(** Rows kept by a filter still have pairwise distinct keys. *)
Lemma filter_keeps_distinct_keys {Row Key} (key : Row -> Key)
    (keep : Row -> bool) (rows : list Row)
    (Hkeys : NoDup (map key rows)) :
  NoDup (map key (filter keep rows)).
Proof.
  induction rows as [|r rows IH]; simpl in *; [constructor|].
  apply NoDup_cons_iff in Hkeys. destruct Hkeys as [Hr Hkeys].
  destruct (keep r); simpl; [|now apply IH].
  constructor; [|now apply IH].
  intros Hin. apply Hr. apply in_map_iff in Hin.
  destruct Hin as [y [E Hy]]. apply filter_In in Hy.
  rewrite <- E. apply in_map, Hy.
Qed.

(** With one gold row per ISBN, rows and distinct ISBNs count the same. *)
Lemma distinct_isbns_length (gold : list Gold.row) (p : Gold.row -> bool) :
  NoDup (map Gold.ISBN gold) ->
  distinct_isbns (filter p gold) = length (filter p gold).
Proof.
  intros Hnd. unfold distinct_isbns, distinct, isbn_eqb.
  rewrite (@distinct_from_NoDup_id _ _ string_key_spec).
  - apply length_map.
  - now apply filter_keeps_distinct_keys.
  - intros x _ [].
Qed.

(** C4 (as amended).  For [0 < n <= 2^31 - 1], in the view of
    [get_top_authors] the [rating_count] of an author is the number of gold
    rows with that author (at least one), not a sum of the per-ISBN
    counts; an author has at most one row, and when [n] covers all authors
    every author of gold has a row.  The number of gold rows of an author
    is the number of its distinct rated ISBNs when no two gold rows share
    an ISBN. *)
Theorem top_authors_count_gold_rows (o : RowOrder) (self : BooksPipeline)
    gold (n : Z) :
  gold_books self = Some gold -> 0 < n <= int_max ->
  exists top,
    returns (get_top_authors o n) self self top
    /\ (forall a, In a top ->
          AuthorCount.rating_count a =
          Z.of_nat (length (gold_by_author (AuthorCount.Book_Author a) gold))
          /\ 1 <= AuthorCount.rating_count a)
    /\ NoDup (map AuthorCount.Book_Author top)
    /\ (Z.of_nat (length (author_counts gold)) <= n ->
        forall g, In g gold ->
          exists a, In a top
                    /\ AuthorCount.Book_Author a = Gold.Book_Author g)
    /\ (NoDup (map Gold.ISBN gold) ->
        forall a, In a top ->
          AuthorCount.rating_count a =
          Z.of_nat (distinct_isbns
                      (gold_by_author (AuthorCount.Book_Author a) gold))).
Proof.
  intros Hg Hn. eexists.
  split; [apply (get_top_authors_returns o self Hg); lia|].
  set (sorted := orderBy_desc o AuthorCount.rating_count (author_counts gold)).
  assert (Hperm : Permutation (author_counts gold) sorted)
    by apply orderBy_desc_perm.
  assert (Hsub : forall a, In a (firstn (Z.to_nat n) sorted) ->
                           In a (author_counts gold)).
  { intros a Ha. apply (Permutation_in a (Permutation_sym Hperm)).
    rewrite <- (firstn_skipn (Z.to_nat n) sorted). apply in_or_app. now left. }
  split; [|split; [|split]].
  - intros a Ha. apply Hsub, author_counts_In in Ha. destruct Ha as [Hk Hc].
    split; [exact Hc|]. rewrite Hc.
    apply in_map_iff in Hk. destruct Hk as [g [Eg Hin]].
    assert (Hin' : In g (gold_by_author (AuthorCount.Book_Author a) gold)).
    { apply filter_In. split; [exact Hin | now apply string_key_spec]. }
    destruct (gold_by_author (AuthorCount.Book_Author a) gold);
      [contradiction | simpl length; lia].
  - rewrite <- firstn_map. apply NoDup_firstn.
    apply (Permutation_NoDup (Permutation_map _ Hperm)).
    apply author_counts_NoDup.
  - intros Hall g Hin.
    rewrite firstn_all2
      by (unfold sorted; rewrite orderBy_desc_length; lia).
    exists (AuthorCount.mk (Gold.Book_Author g)
              (Z.of_nat (length (gold_by_author (Gold.Book_Author g) gold)))).
    split; [|reflexivity].
    apply (Permutation_in _ Hperm), author_counts_In. simpl.
    split; [now apply in_map | reflexivity].
  - intros Hnd a Ha. apply Hsub, author_counts_In in Ha.
    destruct Ha as [_ Hc]. rewrite Hc. f_equal. symmetry.
    now apply distinct_isbns_length.
Qed.

Lemma top_authors_count_gold_rows_witness :
  exists top,
    returns (get_top_authors reverse_order 10) ex_gold ex_gold top
    /\ (forall a, In a top ->
          AuthorCount.rating_count a =
          Z.of_nat (length (gold_by_author (AuthorCount.Book_Author a)
                              ex_gold_rows))
          /\ 1 <= AuthorCount.rating_count a)
    /\ NoDup (map AuthorCount.Book_Author top)
    /\ (Z.of_nat (length (author_counts ex_gold_rows)) <= 10 ->
        forall g, In g ex_gold_rows ->
          exists a, In a top
                    /\ AuthorCount.Book_Author a = Gold.Book_Author g)
    /\ (NoDup (map Gold.ISBN ex_gold_rows) ->
        forall a, In a top ->
          AuthorCount.rating_count a =
          Z.of_nat (distinct_isbns
                      (gold_by_author (AuthorCount.Book_Author a)
                         ex_gold_rows))).
Proof.
  apply (@top_authors_count_gold_rows reverse_order ex_gold ex_gold_rows 10);
    [reflexivity | unfold int_max; lia].
Defined.

(** C4 as stated fails on its reading of gold rows as distinct rated
    ISBNs: with two book rows for the one ISBN "A" of "Auth1", the view
    gives "Auth1" the count 2. *)
Lemma top_authors_count_gold_rows_counterexample :
  gold_books dup_gold = Some dup_gold_rows
  /\ get_top_authors input_order 10 dup_gold
     = (dup_gold, inr [AuthorCount.mk (Some "Auth1") 2])
  /\ distinct_isbns (gold_by_author (Some "Auth1") dup_gold_rows) = 1%nat
  /\ ~ (forall a,
          In a [AuthorCount.mk (Some "Auth1") 2] ->
          AuthorCount.rating_count a =
          Z.of_nat (distinct_isbns
                      (gold_by_author (AuthorCount.Book_Author a)
                         dup_gold_rows))).
Proof.
  split; [reflexivity|]. split; [reflexivity|]. split; [reflexivity|].
  intros H. specialize (H _ (or_introl eq_refl)). vm_compute in H.
  discriminate H.
Qed.

(** On the sample data the book of "Auth1" was rated twice, and the view
    gives "Auth1" the count 1, the number of its gold rows, not 2. *)
Example top_authors_rows_not_ratings :
  map Gold.rating_count (gold_by_author (Some "Auth1") ex_gold_rows) = [2]
  /\ get_top_authors input_order 10 ex_gold =
     (ex_gold, inr [AuthorCount.mk (Some "Auth1") 1;
                    AuthorCount.mk (Some "Auth2") 1]).
Proof. split; reflexivity. Qed.

Lemma users_join_ratings_In (us : list Users.row) (rs : list Ratings.row)
    (j : UserRating.row) :
  In j (users_join_ratings us rs) <->
  exists u r, In u us /\ In r rs
              /\ sql_key_match Z.eqb (Users.User_ID u) (Ratings.User_ID r) = true
              /\ j = user_rating_row u r.
Proof.
  unfold users_join_ratings, join_inner. rewrite in_flat_map. split.
  - intros [u [Hu Hj]]. apply in_map_iff in Hj. destruct Hj as [r [E Hr]].
    apply filter_In in Hr. exists u, r. intuition.
  - intros [u [r [Hu [Hr [Hm E]]]]]. exists u. split; [exact Hu|].
    apply in_map_iff. exists r. split; [now symmetry|].
    apply filter_In. now split.
Qed.

(** The key column of the join is never NULL. *)
Lemma users_join_ratings_key (us : list Users.row) (rs : list Ratings.row)
    (j : UserRating.row) :
  In j (users_join_ratings us rs) -> UserRating.User_ID j <> None.
Proof.
  rewrite users_join_ratings_In. intros [u [r [_ [_ [Hm E]]]]]. subst j. simpl.
  destruct (Users.User_ID u); [discriminate | simpl in Hm; discriminate].
Qed.

(** The joined rows of a bucket: each user row of the bucket brings one
    joined row per rating row of that user. *)
Lemma join_bucket_length (p : Users.row -> bool) (q : UserRating.row -> bool)
    (us : list Users.row) (rs : list Ratings.row) :
  (forall u r, q (user_rating_row u r) = p u) ->
  length (filter q (users_join_ratings us rs)) =
  nat_sum (map (fun u => ratings_by_user u rs) (filter p us)).
Proof.
  intros Hpq. unfold users_join_ratings, join_inner.
  induction us as [|u us IH]; simpl; [reflexivity|].
  rewrite filter_app, length_app, IH, filter_map_comm, length_map.
  destruct (p u) eqn:E; simpl.
  - f_equal. unfold ratings_by_user. f_equal. apply filter_all.
    intros r _. now rewrite Hpq.
  - rewrite filter_none; [reflexivity|]. intros r _. now rewrite Hpq.
Qed.

Lemma location_counts_In (j : list UserRating.row) (l : LocationCount.row) :
  In l (location_counts j) ->
  LocationCount.user_count l =
  count UserRating.User_ID (joined_at_location (LocationCount.Location l) j).
Proof.
  unfold location_counts. rewrite in_map_iff.
  intros [[k rows] [E H]]. subst l. simpl.
  apply (@groupBy_In _ _ string_key_spec) in H. destruct H as [_ Hrows].
  now subst rows.
Qed.

Lemma age_counts_In (j : list UserRating.row) (a : AgeCount.row) :
  In a (age_counts j) ->
  AgeCount.user_count a =
  count UserRating.User_ID (joined_at_age (AgeCount.Age a) j).
Proof.
  unfold age_counts. rewrite in_map_iff.
  intros [[k rows] [E H]]. subst a. simpl.
  apply (@groupBy_In _ _ Z_key_spec) in H. destruct H as [_ Hrows].
  now subst rows.
Qed.

Lemma firstn_orderBy_In {R} (o : RowOrder) (metric : R -> Z) (n : nat)
    (df : list R) (x : R) :
  In x (firstn n (orderBy_desc o metric df)) -> In x df.
Proof.
  intros H.
  apply (Permutation_in x (Permutation_sym (orderBy_desc_perm o metric df))).
  rewrite <- (firstn_skipn n (orderBy_desc o metric df)).
  apply in_or_app. now left.
Qed.

(** The grouped views of the join: one row for each bucket that occurs,
    with the number of joined rows of the bucket. *)
Lemma location_view_rows (us : list Users.row) (rs : list Ratings.row)
    (l : LocationCount.row) :
  In l (location_counts (users_join_ratings us rs)) <->
  In (LocationCount.Location l)
     (map UserRating.Location (users_join_ratings us rs))
  /\ LocationCount.user_count l =
     Z.of_nat (length (joined_at_location (LocationCount.Location l)
                         (users_join_ratings us rs))).
Proof.
  assert (Hc : forall k,
             count UserRating.User_ID
               (joined_at_location k (users_join_ratings us rs))
             = Z.of_nat (length (joined_at_location k
                                   (users_join_ratings us rs)))).
  { intros k. apply count_all_present. intros j Hj. apply filter_In in Hj.
    apply (users_join_ratings_key us rs), Hj. }
  unfold location_counts. rewrite in_map_iff. split.
  - intros [[k rows] [<- H]]. simpl.
    apply (@groupBy_In _ _ string_key_spec) in H. destruct H as [Hk ->].
    split; [exact Hk | apply Hc].
  - intros [Hk Hn]. destruct l as [k c]. simpl in *.
    exists (k, joined_at_location k (users_join_ratings us rs)). split.
    + simpl. now rewrite Hc, Hn.
    + apply (@groupBy_In _ _ string_key_spec). split; [exact Hk | reflexivity].
Qed.

Lemma age_view_rows (us : list Users.row) (rs : list Ratings.row)
    (a : AgeCount.row) :
  In a (age_counts (users_join_ratings us rs)) <->
  In (AgeCount.Age a) (map UserRating.Age (users_join_ratings us rs))
  /\ AgeCount.user_count a =
     Z.of_nat (length (joined_at_age (AgeCount.Age a)
                         (users_join_ratings us rs))).
Proof.
  assert (Hc : forall k,
             count UserRating.User_ID
               (joined_at_age k (users_join_ratings us rs))
             = Z.of_nat (length (joined_at_age k (users_join_ratings us rs)))).
  { intros k. apply count_all_present. intros j Hj. apply filter_In in Hj.
    apply (users_join_ratings_key us rs), Hj. }
  unfold age_counts. rewrite in_map_iff. split.
  - intros [[k rows] [<- H]]. simpl.
    apply (@groupBy_In _ _ Z_key_spec) in H. destruct H as [Hk ->].
    split; [exact Hk | apply Hc].
  - intros [Hk Hn]. destruct a as [k c]. simpl in *.
    exists (k, joined_at_age k (users_join_ratings us rs)). split.
    + simpl. now rewrite Hc, Hn.
    + apply (@groupBy_In _ _ Z_key_spec). split; [exact Hk | reflexivity].
Qed.

Lemma location_counts_NoDup (j : list UserRating.row) :
  NoDup (map LocationCount.Location (location_counts j)).
Proof.
  unfold location_counts. rewrite map_map. simpl.
  rewrite <- (map_map fst (fun k : option string => k)), map_id, groupBy_keys.
  apply (@distinct_NoDup _ _ string_key_spec).
Qed.

Lemma age_counts_NoDup (j : list UserRating.row) :
  NoDup (map AgeCount.Age (age_counts j)).
Proof.
  unfold age_counts. rewrite map_map. simpl.
  rewrite <- (map_map fst (fun k : option Z => k)), map_id, groupBy_keys.
  apply (@distinct_NoDup _ _ Z_key_spec).
Qed.

(** C5.  For [0 < n <= 2^31 - 1], the location view and the age view are
    the top [n] rows of a table that has exactly one row for each Location
    (resp. Age) that occurs in the inner join of users and ratings on
    [User-ID], and the [user_count] of that row is the number of joined
    rows that fall in the bucket: the sum, over the user rows of the
    bucket, of the number of rating rows of that user. *)
Theorem cross_views_count_join_rows (o : RowOrder) (self : BooksPipeline)
    us rs (n : Z) :
  users_silver self = Some us -> ratings_silver self = Some rs ->
  0 < n <= int_max ->
  (exists view top,
      returns (get_top_locations_of_users_who_rated_books o n) self self top
      /\ ranked LocationCount.user_count n view top
      /\ NoDup (map LocationCount.Location view)
      /\ (forall l, In l view <->
            In (LocationCount.Location l)
               (map UserRating.Location (users_join_ratings us rs))
            /\ LocationCount.user_count l =
               Z.of_nat (length (joined_at_location (LocationCount.Location l)
                                   (users_join_ratings us rs))))
      /\ (forall l, In l top -> In l view)
      /\ forall l,
           length (joined_at_location l (users_join_ratings us rs))
           = nat_sum (map (fun u => ratings_by_user u rs)
                          (users_at_location l us)))
  /\ (exists view top,
      returns (get_top_age_of_users_who_rated_books o n) self self top
      /\ ranked AgeCount.user_count n view top
      /\ NoDup (map AgeCount.Age view)
      /\ (forall a, In a view <->
            In (AgeCount.Age a)
               (map UserRating.Age (users_join_ratings us rs))
            /\ AgeCount.user_count a =
               Z.of_nat (length (joined_at_age (AgeCount.Age a)
                                   (users_join_ratings us rs))))
      /\ (forall a, In a top -> In a view)
      /\ forall a,
           length (joined_at_age a (users_join_ratings us rs))
           = nat_sum (map (fun u => ratings_by_user u rs)
                          (users_at_age a us))).
Proof.
  intros Hu Hr Hn. split.
  - exists (location_counts (users_join_ratings us rs)). eexists.
    split; [apply (get_top_locations_returns o self Hu Hr); lia|].
    split; [apply firstn_orderBy_ranked|].
    split; [apply location_counts_NoDup|].
    split; [apply location_view_rows|].
    split; [intros l; apply firstn_orderBy_In|].
    intros l. apply join_bucket_length. reflexivity.
  - exists (age_counts (users_join_ratings us rs)). eexists.
    split; [apply (get_top_ages_returns o self Hu Hr); lia|].
    split; [apply firstn_orderBy_ranked|].
    split; [apply age_counts_NoDup|].
    split; [apply age_view_rows|].
    split; [intros a; apply firstn_orderBy_In|].
    intros a. apply join_bucket_length. reflexivity.
Qed.

Lemma cross_views_count_join_rows_witness :
  (exists view top,
      returns (get_top_locations_of_users_who_rated_books reverse_order 10)
        ex_silver ex_silver top
      /\ ranked LocationCount.user_count 10 view top
      /\ NoDup (map LocationCount.Location view)
      /\ (forall l, In l view <->
            In (LocationCount.Location l)
               (map UserRating.Location
                  (users_join_ratings ex_silver_users ex_silver_ratings))
            /\ LocationCount.user_count l =
               Z.of_nat (length (joined_at_location (LocationCount.Location l)
                                   (users_join_ratings ex_silver_users
                                      ex_silver_ratings))))
      /\ (forall l, In l top -> In l view)
      /\ forall l,
           length (joined_at_location l
                     (users_join_ratings ex_silver_users ex_silver_ratings))
           = nat_sum (map (fun u => ratings_by_user u ex_silver_ratings)
                          (users_at_location l ex_silver_users)))
  /\ (exists view top,
      returns (get_top_age_of_users_who_rated_books reverse_order 10)
        ex_silver ex_silver top
      /\ ranked AgeCount.user_count 10 view top
      /\ NoDup (map AgeCount.Age view)
      /\ (forall a, In a view <->
            In (AgeCount.Age a)
               (map UserRating.Age
                  (users_join_ratings ex_silver_users ex_silver_ratings))
            /\ AgeCount.user_count a =
               Z.of_nat (length (joined_at_age (AgeCount.Age a)
                                   (users_join_ratings ex_silver_users
                                      ex_silver_ratings))))
      /\ (forall a, In a top -> In a view)
      /\ forall a,
           length (joined_at_age a
                     (users_join_ratings ex_silver_users ex_silver_ratings))
           = nat_sum (map (fun u => ratings_by_user u ex_silver_ratings)
                          (users_at_age a ex_silver_users))).
Proof.
  apply (@cross_views_count_join_rows reverse_order ex_silver
           ex_silver_users ex_silver_ratings 10);
    [reflexivity | reflexivity | unfold int_max; lia].
Defined.

(** On the sample data two users live in "london" and each rated two
    books: the location view gives "london" the count 4. *)
Example top_locations_rating_events :
  length (users_at_location (Some "london") (dropna users_all_nulls ex_users)) = 2%nat
  /\ get_top_locations_of_users_who_rated_books input_order 10 ex_silver =
     (ex_silver, inr [LocationCount.mk (Some "london") 4]).
Proof. split; reflexivity. Qed.

(* ================================================================== *)
(** ** The order of the stages *)
(* ================================================================== *)


Lemma aggregate_gold_no_books_silver (self : BooksPipeline) :
  ratings_silver self <> None -> books_silver self = None ->
  aggregate_gold self = (self, inl (AttributeError "books_silver")).
Proof.
  intros H1 H2. unfold aggregate_gold, bind, getattr.
  destruct (ratings_silver self); [|congruence]. now rewrite H2.
Qed.

Lemma top_of_gold_no_gold (o : RowOrder) (self : BooksPipeline) (n : Z) :
  gold_books self = None ->
  get_top_books o n self = (self, inl (AttributeError "gold_books"))
  /\ get_top_authors o n self = (self, inl (AttributeError "gold_books")).
Proof.
  intros H. unfold get_top_books, get_top_authors, bind, getattr.
  now rewrite H.
Qed.







(* ================================================================== *)
(** ** The gold dataset *)
(* ================================================================== *)

Lemma has_isbn_group_key (i : string) (c : option string) :
  isbn_eqb c (Some i) = has_isbn i c.
Proof.
  destruct c as [j|]; simpl; [apply String.eqb_sym | reflexivity].
Qed.

Lemma has_isbn_join_key (i : string) (c : option string) :
  sql_key_match String.eqb (Some i) c = has_isbn i c.
Proof. destruct c; reflexivity. Qed.

Lemma has_isbn_true (i : string) (c : option string) :
  has_isbn i c = true <-> c = Some i.
Proof.
  destruct c as [j|]; simpl; [|split; discriminate].
  rewrite String.eqb_eq. split; congruence.
Qed.

Lemma flat_map_filter {A B} (p : A -> bool) (f : A -> list B) (l : list A) :
  flat_map (fun x => if p x then f x else []) l = flat_map f (filter p l).
Proof.
  induction l as [|x l IH]; simpl; [reflexivity|].
  destruct (p x); simpl; now rewrite IH.
Qed.

(** The statistics rows with the ISBN [i]: one if [i] was rated, else none. *)
Lemma book_stats_of_isbn (i : string) (rs : list Ratings.row) :
  filter (fun x => has_isbn i (BookStats.ISBN x)) (book_stats rs) =
  match ratings_of i rs with
  | [] => []
  | rows => [BookStats.mk (Some i) (count Ratings.Book_Rating rows)
                          (avg Ratings.Book_Rating rows)]
  end.
Proof.
  unfold book_stats. rewrite filter_map_comm. simpl.
  rewrite (filter_ext _ (fun g : option string * list Ratings.row =>
                           isbn_eqb (fst g) (Some i)))
    by (intros g; symmetry; apply has_isbn_group_key).
  unfold isbn_eqb.
  rewrite (@groupBy_filter_key _ _ string_key_spec).
  fold isbn_eqb.
  rewrite (filter_ext (fun r => isbn_eqb (Ratings.ISBN r) (Some i))
                      (fun r => has_isbn i (Ratings.ISBN r)))
    by (intros r; apply has_isbn_group_key).
  fold (ratings_of i rs).
  destruct (existsb (fun r => isbn_eqb (Ratings.ISBN r) (Some i)) rs) eqn:E.
  - apply existsb_exists in E. destruct E as [r [Hr Hi]].
    rewrite has_isbn_group_key in Hi.
    assert (Hin : In r (ratings_of i rs)) by (apply filter_In; now split).
    destruct (ratings_of i rs); [contradiction | reflexivity].
  - destruct (ratings_of i rs) as [|r rows] eqn:Er; [reflexivity|].
    assert (Hin : In r (ratings_of i rs)) by (rewrite Er; now left).
    apply filter_In in Hin. destruct Hin as [Hr Hi].
    assert (existsb (fun r => isbn_eqb (Ratings.ISBN r) (Some i)) rs = true).
    { apply existsb_exists. exists r. now rewrite has_isbn_group_key. }
    congruence.
Qed.

(** The gold rows with the ISBN [i]: the statistics of [i] joined with
    each book row that carries [i]. *)
Lemma gold_of_isbn (i : string) (rs : list Ratings.row) (bs : list Books.row) :
  gold_of i (join_inner String.eqb BookStats.ISBN Books.ISBN gold_row
               (book_stats rs) bs) =
  match ratings_of i rs with
  | [] => []
  | rows => map (gold_row (BookStats.mk (Some i)
                             (count Ratings.Book_Rating rows)
                             (avg Ratings.Book_Rating rows)))
                (books_of i bs)
  end.
Proof.
  unfold gold_of, join_inner. rewrite filter_flat_map.
  rewrite (flat_map_ext _
             (fun x => if has_isbn i (BookStats.ISBN x)
                       then map (gold_row x)
                              (filter (fun y => sql_key_match String.eqb
                                                  (BookStats.ISBN x) (Books.ISBN y)) bs)
                       else [])).
  2:{ intros x. rewrite filter_map_comm. simpl.
      destruct (has_isbn i (BookStats.ISBN x)).
      - f_equal. apply filter_all. reflexivity.
      - rewrite filter_none; reflexivity. }
  rewrite flat_map_filter, book_stats_of_isbn.
  destruct (ratings_of i rs) as [|r rows]; [reflexivity|].
  simpl. rewrite app_nil_r. f_equal.
Qed.

Lemma in_range_values (rows : list Ratings.row) :
  (forall r, In r rows -> in_range r) ->
  length (rating_values rows) = length rows
  /\ Forall (fun v => 0 <= v <= 10) (rating_values rows).
Proof.
  unfold rating_values, cell_values.
  induction rows as [|r rows IH]; simpl; intros H.
  - split; [reflexivity | constructor].
  - destruct (H r (or_introl eq_refl)) as [v [Ev Hv]]. rewrite Ev. simpl.
    destruct IH as [IH1 IH2]; [intros; apply H; now right|].
    split; [now rewrite IH1 | now constructor].
Qed.

(** Count and mean of a group of rows whose ratings are all in range. *)
Lemma stats_of_valid_rows (rows : list Ratings.row) :
  rows <> [] -> (forall r, In r rows -> in_range r) ->
  count Ratings.Book_Rating rows = Z.of_nat (length rows)
  /\ exists q,
       avg Ratings.Book_Rating rows = Some q
       /\ within_rounding q (mean (rating_values rows))
       /\ (0 <= q <= 10)%Q.
Proof.
  intros Hne Hr. destruct (in_range_values rows Hr) as [Hlen Hb].
  split.
  - rewrite count_values. fold (rating_values rows). now rewrite Hlen.
  - rewrite avg_values. fold (rating_values rows).
    assert (Hv : rating_values rows <> []).
    { intros E. rewrite E in Hlen. destruct rows; [congruence | discriminate]. }
    destruct (rating_values rows) as [|v vs] eqn:E; [congruence|].
    eexists. split; [reflexivity|].
    now apply nearest_double_mean.
Qed.

Lemma silver_ratings_of_in_range (i : string) (r : list Ratings.row) :
  forall x, In x (ratings_of i (filter_where valid_rating r)) -> in_range x.
Proof.
  intros x Hx. apply filter_In in Hx. destruct Hx as [Hx _].
  apply filter_where_In in Hx. now apply valid_rating_in_range.
Qed.




(** The scenario of the specification: two ratings 5 and 7 for "A", one
    rating 10 for "B", one book row each.  The means 6 and 10 are doubles. *)
Example gold_scenario :
  map (fun g => (Gold.ISBN g, Gold.rating_count g,
                 option_map Qred (Gold.avg_rating g),
                 Gold.Book_Title g, Gold.Book_Author g))
      ex_gold_rows
  = [ (Some "A", 2, Some (6 # 1)%Q, Some "Title1", Some "Auth1");
      (Some "B", 1, Some (10 # 1)%Q, Some "Title2", Some "Auth2") ]
  /\ gold_books ex_gold = Some ex_gold_rows
  /\ snd (get_top_books input_order 1 ex_gold) = inr (firstn 1 ex_gold_rows).
Proof. repeat split; vm_compute; reflexivity. Qed.

(** C10.  With the bronze data loaded, every row of the gold dataset that
    [transform_silver] and then [aggregate_gold] produce has an
    [avg_rating] between 0 and 10. *)
Theorem gold_avg_rating_in_range (self : BooksPipeline) b r u :
  books self = Some b -> ratings self = Some r -> users self = Some u ->
  exists s1 s2 gold,
    returns transform_silver self s1 tt
    /\ returns aggregate_gold s1 s2 tt
    /\ gold_books s2 = Some gold
    /\ forall g, In g gold ->
         exists q, Gold.avg_rating g = Some q /\ (0 <= q <= 10)%Q.
Proof.
  intros Hb Hr Hu.
  pose proof (transform_silver_returns self Hb Hr Hu) as Ht.
  do 3 eexists.
  split; [exact Ht|].
  split; [apply aggregate_gold_returns; reflexivity|].
  split; [reflexivity|].
  intros g Hg. unfold join_inner in Hg. apply in_flat_map in Hg.
  destruct Hg as [x [Hx Hg]]. apply in_map_iff in Hg.
  destruct Hg as [bk [<- _]]. simpl.
  unfold book_stats in Hx. apply in_map_iff in Hx.
  destruct Hx as [[k rows] [<- Hgrp]]. simpl.
  pose proof (@groupBy_nonempty _ _ string_key_spec _ _ _ _ _ Hgrp) as Hne.
  apply (@groupBy_In _ _ string_key_spec) in Hgrp. destruct Hgrp as [_ Hrows].
  assert (Hvalid : forall y, In y rows -> in_range y).
  { intros y Hy. subst rows. apply filter_In in Hy. destruct Hy as [Hy _].
    apply filter_where_In in Hy. now apply valid_rating_in_range. }
  destruct (stats_of_valid_rows Hne Hvalid) as [_ [q [Hq [_ Hbounds]]]].
  exists q. now split.
Qed.

Lemma gold_avg_rating_in_range_witness :
  exists s1 s2 gold,
    returns transform_silver ex_loaded s1 tt
    /\ returns aggregate_gold s1 s2 tt
    /\ gold_books s2 = Some gold
    /\ forall g, In g gold ->
         exists q, Gold.avg_rating g = Some q /\ (0 <= q <= 10)%Q.
Proof.
  apply (@gold_avg_rating_in_range ex_loaded ex_books ex_ratings ex_users);
    reflexivity.
Defined.

(* ================================================================== *)
(** ** Further properties of the gold dataset *)
(* ================================================================== *)

Lemma nat_sum_add {A} (f g : A -> nat) (l : list A) :
  nat_sum (map (fun x => (f x + g x)%nat) l)
  = (nat_sum (map f l) + nat_sum (map g l))%nat.
Proof.
  induction l as [|x l IH]; simpl; [reflexivity|]. rewrite IH. lia.
Qed.

Lemma filter_length_sum {A} (p : A -> bool) (l : list A) :
  length (filter p l) = nat_sum (map (fun x => if p x then 1%nat else 0%nat) l).
Proof.
  induction l as [|x l IH]; simpl; [reflexivity|].
  destruct (p x); simpl; now rewrite IH.
Qed.

(** Counting the rows of a join from the right: each right row brings one
    joined row per left row with its key. *)
Lemma join_inner_length_right {L R K O} (eqb : K -> K -> bool)
    (kl : L -> option K) (kr : R -> option K) (mk : L -> R -> O)
    (left : list L) (right : list R) :
  length (join_inner eqb kl kr mk left right)
  = nat_sum (map (fun y => length (filter (fun x => sql_key_match eqb (kl x) (kr y))
                                          left)) right).
Proof.
  unfold join_inner.
  induction left as [|x left IH]; simpl.
  - induction right as [|y right IHr]; simpl; [reflexivity | exact IHr].
  - rewrite length_app, length_map, IH, filter_length_sum, <- nat_sum_add.
    f_equal. apply map_ext. intros y.
    destruct (sql_key_match eqb (kl x) (kr y)); reflexivity.
Qed.

Lemma ratings_of_nil_rated (i : string) (rs : list Ratings.row) :
  existsb (fun r => has_isbn i (Ratings.ISBN r)) rs
  = match ratings_of i rs with [] => false | _ => true end.
Proof.
  unfold ratings_of.
  induction rs as [|r rs IH]; simpl; [reflexivity|].
  destruct (has_isbn i (Ratings.ISBN r)); simpl; [reflexivity | exact IH].
Qed.

(** The statistics rows that a book row joins with: one if its ISBN was
    rated, none otherwise. *)
Lemma book_stats_matching (rs : list Ratings.row) (b : Books.row) :
  length (filter (fun x => sql_key_match String.eqb (BookStats.ISBN x) (Books.ISBN b))
                 (book_stats rs))
  = if rated rs b then 1%nat else 0%nat.
Proof.
  unfold rated. destruct (Books.ISBN b) as [i|].
  - rewrite (filter_ext _ (fun x => has_isbn i (BookStats.ISBN x))).
    + rewrite book_stats_of_isbn, ratings_of_nil_rated.
      destruct (ratings_of i rs); reflexivity.
    + intros x. destruct (BookStats.ISBN x) as [j|]; simpl;
        [apply String.eqb_sym | reflexivity].
  - rewrite filter_none; [reflexivity|].
    intros x _. destruct (BookStats.ISBN x); reflexivity.
Qed.

Lemma gold_length (rs : list Ratings.row) (bs : list Books.row) :
  length (join_inner String.eqb BookStats.ISBN Books.ISBN gold_row
            (book_stats rs) bs)
  = length (filter (rated rs) bs).
Proof.
  rewrite join_inner_length_right, filter_length_sum. f_equal.
  apply map_ext. intros b. apply book_stats_matching.
Qed.

Lemma filter_length_le {A} (p : A -> bool) (l : list A) :
  (length (filter p l) <= length l)%nat.
Proof.
  induction l as [|x l IH]; simpl; [lia|]. destruct (p x); simpl; lia.
Qed.

(** X1.  With the bronze data loaded, the gold dataset has one row for
    each silver book row whose ISBN has a silver rating: its number of
    rows is the number of such book rows, hence never more than the number
    of silver book rows or of bronze book rows. *)
Theorem gold_row_count (self : BooksPipeline) b r u :
  books self = Some b -> ratings self = Some r -> users self = Some u ->
  exists s1 s2 bs rs gold,
    returns transform_silver self s1 tt
    /\ books_silver s1 = Some bs /\ ratings_silver s1 = Some rs
    /\ returns aggregate_gold s1 s2 tt
    /\ gold_books s2 = Some gold
    /\ length gold = length (filter (rated rs) bs)
    /\ (length gold <= length bs)%nat
    /\ (length gold <= length b)%nat.
Proof.
  intros Hb Hr Hu.
  pose proof (transform_silver_returns self Hb Hr Hu) as Ht.
  do 5 eexists.
  split; [exact Ht|]. split; [reflexivity|]. split; [reflexivity|].
  split; [apply aggregate_gold_returns; reflexivity|].
  split; [reflexivity|].
  rewrite gold_length.
  split; [reflexivity|]. split.
  - apply filter_length_le.
  - eapply Nat.le_trans; [apply filter_length_le|].
    unfold dropna. apply filter_length_le.
Qed.

Lemma gold_row_count_witness :
  exists s1 s2 bs rs gold,
    returns transform_silver ex_loaded s1 tt
    /\ books_silver s1 = Some bs /\ ratings_silver s1 = Some rs
    /\ returns aggregate_gold s1 s2 tt
    /\ gold_books s2 = Some gold
    /\ length gold = length (filter (rated rs) bs)
    /\ (length gold <= length bs)%nat
    /\ (length gold <= length ex_books)%nat.
Proof.
  apply (@gold_row_count ex_loaded ex_books ex_ratings ex_users); reflexivity.
Defined.

(** Every row of the join comes from a statistics row and a book row with
    the same ISBN. *)
Lemma gold_row_origin (rs : list Ratings.row) (bs : list Books.row)
    (g : Gold.row) :
  In g (join_inner String.eqb BookStats.ISBN Books.ISBN gold_row
          (book_stats rs) bs) ->
  exists i rows bk,
    rows = ratings_of i rs /\ rows <> []
    /\ In bk bs /\ Books.ISBN bk = Some i
    /\ g = gold_row (BookStats.mk (Some i) (count Ratings.Book_Rating rows)
                                  (avg Ratings.Book_Rating rows)) bk.
Proof.
  unfold join_inner. rewrite in_flat_map. intros [x [Hx Hg]].
  apply in_map_iff in Hg. destruct Hg as [bk [<- Hbk]].
  apply filter_In in Hbk. destruct Hbk as [Hbk Hm].
  unfold book_stats in Hx. apply in_map_iff in Hx.
  destruct Hx as [[k rows] [<- Hgrp]]. simpl in *.
  pose proof (@groupBy_nonempty _ _ string_key_spec _ _ _ _ _ Hgrp) as Hne.
  apply (@groupBy_In _ _ string_key_spec) in Hgrp. destruct Hgrp as [_ Hrows].
  destruct k as [i|]; [|discriminate].
  destruct (Books.ISBN bk) as [j|] eqn:Ej; [|discriminate].
  simpl in Hm. apply String.eqb_eq in Hm. subst j.
  assert (E : rows = ratings_of i rs).
  { subst rows. apply filter_ext. intros y. apply has_isbn_group_key. }
  exists i, rows, bk. repeat split; assumption.
Qed.

(** X2.  With the bronze data loaded, every row of the gold dataset has an
    ISBN, a title and an author (none is NULL) and a [rating_count] of at
    least 1. *)
Theorem gold_rows_complete (self : BooksPipeline) b r u :
  books self = Some b -> ratings self = Some r -> users self = Some u ->
  exists s1 s2 gold,
    returns transform_silver self s1 tt
    /\ returns aggregate_gold s1 s2 tt
    /\ gold_books s2 = Some gold
    /\ forall g, In g gold ->
         Gold.ISBN g <> None /\ Gold.Book_Title g <> None
         /\ Gold.Book_Author g <> None /\ 1 <= Gold.rating_count g.
Proof.
  intros Hb Hr Hu.
  pose proof (transform_silver_returns self Hb Hr Hu) as Ht.
  do 3 eexists.
  split; [exact Ht|].
  split; [apply aggregate_gold_returns; reflexivity|].
  split; [reflexivity|].
  intros g Hg. apply gold_row_origin in Hg.
  destruct Hg as [i [rows [bk [Hrows [Hne [Hbk [Hi ->]]]]]]]. simpl.
  apply dropna_In in Hbk. destruct Hbk as [_ Hnn].
  unfold books_subset_nulls in Hnn.
  apply Forall_cons_iff in Hnn. destruct Hnn as [Ht1 Hnn'].
  apply Forall_cons_iff in Hnn'. destruct Hnn' as [Ha1 _].
  apply is_null_false in Ht1, Ha1.
  assert (Hvalid : forall y, In y rows -> in_range y)
    by (subst rows; apply silver_ratings_of_in_range).
  destruct (stats_of_valid_rows Hne Hvalid) as [Hc _].
  repeat split; try assumption; try discriminate.
  rewrite Hc. destruct rows; [congruence | simpl length; lia].
Qed.

Lemma gold_rows_complete_witness :
  exists s1 s2 gold,
    returns transform_silver ex_loaded s1 tt
    /\ returns aggregate_gold s1 s2 tt
    /\ gold_books s2 = Some gold
    /\ forall g, In g gold ->
         Gold.ISBN g <> None /\ Gold.Book_Title g <> None
         /\ Gold.Book_Author g <> None /\ 1 <= Gold.rating_count g.
Proof.
  apply (@gold_rows_complete ex_loaded ex_books ex_ratings ex_users);
    reflexivity.
Defined.

Lemma transform_silver_inv (self s1 : BooksPipeline) :
  returns transform_silver self s1 tt ->
  exists b r u,
    books self = Some b /\ ratings self = Some r /\ users self = Some u
    /\ s1 = mkPipeline (Some b) (Some r) (Some u)
              (Some (dropna books_subset_nulls b))
              (Some (filter_where valid_rating r))
              (Some (dropna users_all_nulls u))
              (gold_books self).
Proof.
  unfold returns. destruct self as [b r u bs rs us g].
  destruct b as [b|]; [|discriminate].
  destruct r as [r|]; [|discriminate].
  destruct u as [u|]; [|discriminate].
  intros E. exists b, r, u. repeat split. inversion E. reflexivity.
Qed.






(** X4.  If every bronze book row with the ISBN [i] lacks its title or its
    author, then gold has no row for [i], however many ratings [i] has. *)
Theorem unlisted_book_excluded (self : BooksPipeline) b r u (i : string) :
  books self = Some b -> ratings self = Some r -> users self = Some u ->
  (forall bk, In bk b -> Books.ISBN bk = Some i ->
              Books.Book_Title bk = None \/ Books.Book_Author bk = None) ->
  exists s1 s2 gold,
    returns transform_silver self s1 tt
    /\ returns aggregate_gold s1 s2 tt
    /\ gold_books s2 = Some gold
    /\ gold_of i gold = []
    /\ forall g, In g gold -> Gold.ISBN g <> Some i.
Proof.
  intros Hb Hr Hu Hnull.
  pose proof (transform_silver_returns self Hb Hr Hu) as Ht.
  do 3 eexists.
  split; [exact Ht|].
  split; [apply aggregate_gold_returns; reflexivity|].
  split; [reflexivity|].
  assert (Hbooks : books_of i (dropna books_subset_nulls b) = []).
  { apply filter_none. intros bk Hbk. apply dropna_In in Hbk.
    destruct Hbk as [Hin Hnn]. unfold books_subset_nulls in Hnn.
    apply Forall_cons_iff in Hnn. destruct Hnn as [Ht1 Hnn'].
    apply Forall_cons_iff in Hnn'. destruct Hnn' as [Ha1 _].
    apply is_null_false in Ht1, Ha1.
    destruct (has_isbn i (Books.ISBN bk)) eqn:E; [|reflexivity].
    destruct (Books.ISBN bk) as [j|] eqn:Ej; [|discriminate].
    simpl in E. apply String.eqb_eq in E. subst j.
    destruct (Hnull bk Hin Ej); contradiction. }
  assert (Hnone : gold_of i (join_inner String.eqb BookStats.ISBN Books.ISBN
                               gold_row
                               (book_stats (filter_where valid_rating r))
                               (dropna books_subset_nulls b)) = []).
  { rewrite gold_of_isbn, Hbooks.
    destruct (ratings_of i (filter_where valid_rating r)); reflexivity. }
  split; [exact Hnone|].
  intros g Hg Ei.
  assert (Hin : In g (gold_of i (join_inner String.eqb BookStats.ISBN Books.ISBN
                                   gold_row
                                   (book_stats (filter_where valid_rating r))
                                   (dropna books_subset_nulls b)))).
  { apply filter_In. split; [exact Hg|]. rewrite Ei. simpl.
    apply String.eqb_refl. }
  rewrite Hnone in Hin. contradiction.
Qed.

Lemma unlisted_book_excluded_witness :
  exists s1 s2 gold,
    returns transform_silver ex_loaded s1 tt
    /\ returns aggregate_gold s1 s2 tt
    /\ gold_books s2 = Some gold
    /\ gold_of "C" gold = []
    /\ forall g, In g gold -> Gold.ISBN g <> Some "C".
Proof.
  apply (@unlisted_book_excluded ex_loaded ex_books ex_ratings ex_users "C");
    try reflexivity.
  intros bk [<-|[<-|[<-|[]]]] E; try discriminate E. now right.
Defined.

Lemma filter_Permutation {A} (p : A -> bool) (l l' : list A) :
  Permutation l l' -> Permutation (filter p l) (filter p l').
Proof.
  induction 1 as [|x l l' _ IH|x y l|l l' l'' _ IH1 _ IH2]; simpl.
  - constructor.
  - destruct (p x); [now constructor | exact IH].
  - destruct (p x), (p y); try apply Permutation_refl. apply perm_swap.
  - now apply perm_trans with (filter p l').
Qed.

Lemma Zsum_Permutation (l l' : list Z) :
  Permutation l l' -> Zsum l = Zsum l'.
Proof.
  unfold Zsum.
  induction 1 as [|x l l' _ IH|x y l|l l' l'' _ IH1 _ IH2]; simpl; lia.
Qed.

(** [count] and [avg] see a group as a bag of rows. *)
Lemma stats_Permutation {R} (cell : R -> option Z) (rows rows' : list R) :
  Permutation rows rows' ->
  count cell rows = count cell rows' /\ avg cell rows = avg cell rows'.
Proof.
  intros H.
  assert (Hv : Permutation (cell_values cell rows) (cell_values cell rows'))
    by (unfold cell_values; now apply Permutation_flat_map).
  split.
  - rewrite !count_values. f_equal. now apply Permutation_length.
  - rewrite !avg_values.
    pose proof (Permutation_length Hv) as Hlen.
    pose proof (Zsum_Permutation Hv) as Hsum.
    destruct (cell_values cell rows) as [|v vs];
      destruct (cell_values cell rows') as [|v' vs'];
      try discriminate Hlen; [reflexivity|].
    cbv zeta. now rewrite Hsum, Hlen.
Qed.

(** X5.  The gold rows of an ISBN do not depend on the order of the bronze
    rating rows, nor on the users dataset: two runs whose book rows are the
    same and whose rating rows are the same up to order give, for every
    ISBN, the same gold rows. *)
Theorem gold_independent_of_rating_order
    (self self' : BooksPipeline) b r r' u u' :
  books self = Some b -> ratings self = Some r -> users self = Some u ->
  books self' = Some b -> ratings self' = Some r' -> users self' = Some u' ->
  Permutation r r' ->
  exists s1 s2 gold s1' s2' gold',
    returns transform_silver self s1 tt
    /\ returns aggregate_gold s1 s2 tt /\ gold_books s2 = Some gold
    /\ returns transform_silver self' s1' tt
    /\ returns aggregate_gold s1' s2' tt /\ gold_books s2' = Some gold'
    /\ forall i, gold_of i gold = gold_of i gold'.
Proof.
  intros Hb Hr Hu Hb' Hr' Hu' Hperm.
  pose proof (transform_silver_returns self Hb Hr Hu) as Ht.
  pose proof (transform_silver_returns self' Hb' Hr' Hu') as Ht'.
  do 6 eexists.
  split; [exact Ht|].
  split; [apply aggregate_gold_returns; reflexivity|].
  split; [reflexivity|].
  split; [exact Ht'|].
  split; [apply aggregate_gold_returns; reflexivity|].
  split; [reflexivity|].
  intros i. rewrite !gold_of_isbn.
  assert (Hp : Permutation (ratings_of i (filter_where valid_rating r))
                           (ratings_of i (filter_where valid_rating r')))
    by (apply filter_Permutation, filter_Permutation, Hperm).
  destruct (stats_Permutation Ratings.Book_Rating Hp) as [Hc Ha].
  pose proof (Permutation_length Hp) as Hlen.
  destruct (ratings_of i (filter_where valid_rating r)) as [|x rows];
    destruct (ratings_of i (filter_where valid_rating r')) as [|x' rows'];
    try discriminate Hlen; [reflexivity|].
  cbv zeta. now rewrite Hc, Ha.
Qed.

Lemma gold_independent_of_rating_order_witness :
  exists s1 s2 gold s1' s2' gold',
    returns transform_silver ex_loaded s1 tt
    /\ returns aggregate_gold s1 s2 tt /\ gold_books s2 = Some gold
    /\ returns transform_silver ex_loaded_rev s1' tt
    /\ returns aggregate_gold s1' s2' tt /\ gold_books s2' = Some gold'
    /\ forall i, gold_of i gold = gold_of i gold'.
Proof.
  apply (@gold_independent_of_rating_order ex_loaded ex_loaded_rev
           ex_books ex_ratings ex_ratings_rev ex_users ex_users);
    try reflexivity.
  apply Permutation_rev.
Defined.

(* ================================================================== *)
(** ** Further properties of the cleaning stage *)
(* ================================================================== *)

Lemma filter_idem {A} (p : A -> bool) (l : list A) :
  filter p (filter p l) = filter p l.
Proof.
  apply filter_all. intros x Hx. apply filter_In in Hx. tauto.
Qed.

(** X6.  Cleaning is idempotent: when a load delivers the silver datasets
    as bronze data, running [transform_silver] again gives the same three
    silver datasets. *)
Theorem transform_silver_idempotent (self s1 : BooksPipeline) bs rs us :
  returns transform_silver self s1 tt ->
  books_silver s1 = Some bs -> ratings_silver s1 = Some rs ->
  users_silver s1 = Some us ->
  exists s2 s3,
    returns (load_bronze (inr bs) (inr rs) (inr us)) s1 s2 tt
    /\ returns transform_silver s2 s3 tt
    /\ books_silver s3 = Some bs
    /\ ratings_silver s3 = Some rs
    /\ users_silver s3 = Some us.
Proof.
  intros Ht Hbs Hrs Hus.
  apply transform_silver_inv in Ht.
  destruct Ht as [b [r [u [_ [_ [_ ->]]]]]]. simpl in Hbs, Hrs, Hus.
  inversion Hbs; inversion Hrs; inversion Hus; subst bs rs us.
  do 2 eexists.
  split; [apply load_bronze_returns|].
  split; [apply transform_silver_returns; reflexivity|].
  simpl. unfold dropna, filter_where. now rewrite !filter_idem.
Qed.

Lemma transform_silver_idempotent_witness :
  exists s2 s3,
    returns (load_bronze (inr (dropna books_subset_nulls ex_books))
               (inr ex_silver_ratings) (inr ex_silver_users)) ex_silver s2 tt
    /\ returns transform_silver s2 s3 tt
    /\ books_silver s3 = Some (dropna books_subset_nulls ex_books)
    /\ ratings_silver s3 = Some ex_silver_ratings
    /\ users_silver s3 = Some ex_silver_users.
Proof.
  apply (@transform_silver_idempotent ex_loaded ex_silver); reflexivity.
Defined.

(* ================================================================== *)
(** ** Further properties of the ranking stage *)
(* ================================================================== *)

Lemma limit_negative {R} (n : Z) (df : DataFrame R) :
  int_min <= n < 0 ->
  exists msg, limit n df = inl (AnalysisException msg).
Proof.
  intros Hn. unfold limit, int_min, int_max in *.
  replace (n <? -2147483648) with false by (symmetry; apply Z.ltb_ge; lia).
  replace (2147483647 <? n) with false by (symmetry; apply Z.ltb_ge; lia).
  replace (n <? 0) with true by (symmetry; apply Z.ltb_lt; lia).
  eexists. reflexivity.
Qed.

(** With its input attributes present, a top-N method returns or raises
    as [limit] does. *)
Lemma get_top_books_limit (o : RowOrder) (self : BooksPipeline) gold (n : Z) :
  gold_books self = Some gold ->
  get_top_books o n self
  = (self, limit n (orderBy_desc o Gold.rating_count gold)).
Proof.
  intros Hg. unfold get_top_books, bind, getattr, limit_or_raise, ret, toPandas.
  rewrite Hg. destruct (limit n _); reflexivity.
Qed.

Lemma get_top_authors_limit (o : RowOrder) (self : BooksPipeline) gold (n : Z) :
  gold_books self = Some gold ->
  get_top_authors o n self
  = (self, limit n (orderBy_desc o AuthorCount.rating_count
                      (author_counts gold))).
Proof.
  intros Hg.
  unfold get_top_authors, bind, getattr, limit_or_raise, ret, toPandas.
  rewrite Hg. destruct (limit n _); reflexivity.
Qed.

Lemma get_top_locations_limit (o : RowOrder) (self : BooksPipeline) us rs
    (n : Z) :
  users_silver self = Some us -> ratings_silver self = Some rs ->
  get_top_locations_of_users_who_rated_books o n self
  = (self, limit n (orderBy_desc o LocationCount.user_count
                      (location_counts (users_join_ratings us rs)))).
Proof.
  intros Hu Hr.
  unfold get_top_locations_of_users_who_rated_books, bind, getattr,
    limit_or_raise, ret, toPandas.
  rewrite Hu, Hr. destruct (limit n _); reflexivity.
Qed.

Lemma get_top_ages_limit (o : RowOrder) (self : BooksPipeline) us rs (n : Z) :
  users_silver self = Some us -> ratings_silver self = Some rs ->
  get_top_age_of_users_who_rated_books o n self
  = (self, limit n (orderBy_desc o AgeCount.user_count
                      (age_counts (users_join_ratings us rs)))).
Proof.
  intros Hu Hr.
  unfold get_top_age_of_users_who_rated_books, bind, getattr,
    limit_or_raise, ret, toPandas.
  rewrite Hu, Hr. destruct (limit n _); reflexivity.
Qed.

(** X7.  Bounds of the requested count.  With their input attributes
    present, the four top-N methods return a table without rows for the
    count 0, raise an analysis error for a negative count that is a Java
    int ([-2^31 <= n < 0]), and raise a Py4J error for a count that is no
    Java int ([n < -2^31] or [n > 2^31 - 1]); in all three cases the
    pipeline object stays as it was. *)
Theorem top_n_count_bounds (o : RowOrder) (self : BooksPipeline) gold us rs :
  gold_books self = Some gold ->
  users_silver self = Some us -> ratings_silver self = Some rs ->
  (get_top_books o 0 self = (self, inr [])
   /\ get_top_authors o 0 self = (self, inr [])
   /\ get_top_locations_of_users_who_rated_books o 0 self = (self, inr [])
   /\ get_top_age_of_users_who_rated_books o 0 self = (self, inr []))
  /\ (forall n, int_min <= n < 0 ->
      (exists msg, get_top_books o n self
                   = (self, inl (AnalysisException msg)))
      /\ (exists msg, get_top_authors o n self
                      = (self, inl (AnalysisException msg)))
      /\ (exists msg, get_top_locations_of_users_who_rated_books o n self
                      = (self, inl (AnalysisException msg)))
      /\ (exists msg, get_top_age_of_users_who_rated_books o n self
                      = (self, inl (AnalysisException msg))))
  /\ (forall n, n < int_min \/ int_max < n ->
      (exists msg, get_top_books o n self = (self, inl (Py4JError msg)))
      /\ (exists msg, get_top_authors o n self = (self, inl (Py4JError msg)))
      /\ (exists msg, get_top_locations_of_users_who_rated_books o n self
                      = (self, inl (Py4JError msg)))
      /\ (exists msg, get_top_age_of_users_who_rated_books o n self
                      = (self, inl (Py4JError msg)))).
Proof.
  intros Hg Hu Hr.
  split; [|split].
  - rewrite (get_top_books_limit o self 0 Hg),
      (get_top_authors_limit o self 0 Hg),
      (get_top_locations_limit o self 0 Hu Hr),
      (get_top_ages_limit o self 0 Hu Hr).
    repeat split.
  - intros n Hn.
    rewrite (get_top_books_limit o self n Hg),
      (get_top_authors_limit o self n Hg),
      (get_top_locations_limit o self n Hu Hr),
      (get_top_ages_limit o self n Hu Hr).
    repeat split.
    + destruct (limit_negative (orderBy_desc o Gold.rating_count gold) Hn)
        as [msg ->]. now exists msg.
    + destruct (limit_negative
                  (orderBy_desc o AuthorCount.rating_count (author_counts gold))
                  Hn) as [msg ->]. now exists msg.
    + destruct (limit_negative
                  (orderBy_desc o LocationCount.user_count
                     (location_counts (users_join_ratings us rs))) Hn)
        as [msg ->]. now exists msg.
    + destruct (limit_negative
                  (orderBy_desc o AgeCount.user_count
                     (age_counts (users_join_ratings us rs))) Hn)
        as [msg ->]. now exists msg.
  - intros n Hn.
    rewrite (get_top_books_limit o self n Hg),
      (get_top_authors_limit o self n Hg),
      (get_top_locations_limit o self n Hu Hr),
      (get_top_ages_limit o self n Hu Hr).
    repeat split.
    + destruct (limit_not_an_int (orderBy_desc o Gold.rating_count gold) Hn)
        as [msg ->]. now exists msg.
    + destruct (limit_not_an_int
                  (orderBy_desc o AuthorCount.rating_count (author_counts gold))
                  Hn) as [msg ->]. now exists msg.
    + destruct (limit_not_an_int
                  (orderBy_desc o LocationCount.user_count
                     (location_counts (users_join_ratings us rs))) Hn)
        as [msg ->]. now exists msg.
    + destruct (limit_not_an_int
                  (orderBy_desc o AgeCount.user_count
                     (age_counts (users_join_ratings us rs))) Hn)
        as [msg ->]. now exists msg.
Qed.

Lemma top_n_count_bounds_witness :
  (exists msg, get_top_books input_order (-1) ex_gold
               = (ex_gold, inl (AnalysisException msg)))
  /\ (exists msg, get_top_books input_order (-4294967296) ex_gold
                  = (ex_gold, inl (Py4JError msg)))
  /\ get_top_books input_order 0 ex_gold = (ex_gold, inr []).
Proof.
  pose proof (@top_n_count_bounds input_order ex_gold ex_gold_rows
                ex_silver_users ex_silver_ratings eq_refl eq_refl eq_refl)
    as [H0 [Hneg Hbig]].
  split; [|split].
  - apply (Hneg (-1)). unfold int_min. lia.
  - apply (Hbig (-4294967296)). left. unfold int_min. lia.
  - apply H0.
Defined.

(** X8.  When the requested count covers every row and is a Java int,
    nothing is cut off: [get_top_books] returns all gold rows, each once,
    in descending order of [rating_count], whatever the row order of the
    job. *)
Theorem top_books_all_rows (o : RowOrder) (self : BooksPipeline) gold (n : Z) :
  gold_books self = Some gold ->
  Z.of_nat (length gold) <= n <= int_max ->
  exists top,
    returns (get_top_books o n) self self top
    /\ Permutation gold top
    /\ sorted_desc Gold.rating_count top.
Proof.
  intros Hg Hn. eexists.
  split; [apply (get_top_books_returns o self Hg); lia|].
  rewrite firstn_all2 by (rewrite orderBy_desc_length; lia).
  split; [apply orderBy_desc_perm | apply orderBy_desc_sorted].
Qed.

Lemma top_books_all_rows_witness :
  exists top,
    returns (get_top_books reverse_order 10) ex_gold ex_gold top
    /\ Permutation ex_gold_rows top
    /\ sorted_desc Gold.rating_count top.
Proof.
  apply (@top_books_all_rows reverse_order ex_gold ex_gold_rows 10);
    [reflexivity | split; vm_compute; discriminate].
Defined.

(** X9.  The calls of the script in their order all return when the three
    CSV reads succeed and the counts are Java ints that are not negative:
    on any pipeline object, for any rows of the three datasets and any row
    orders of the jobs, [load_bronze], [transform_silver],
    [aggregate_gold] and then the four top-N methods run through without
    raising. *)
Theorem stages_in_order_return (self : BooksPipeline) b r u
    (o1 o2 o3 o4 : RowOrder) (n1 n2 n3 n4 : Z) :
  0 <= n1 <= int_max -> 0 <= n2 <= int_max ->
  0 <= n3 <= int_max -> 0 <= n4 <= int_max ->
  exists s log,
    run_calls [ Load_bronze (inr b) (inr r) (inr u);
                Transform_silver; Aggregate_gold;
                Get_top_books o1 n1; Get_top_authors o2 n2;
                Get_top_locations o3 n3; Get_top_ages o4 n4 ] self = (s, log)
    /\ map snd log = [true; true; true; true; true; true; true]
    /\ gold_books s
       = Some (join_inner String.eqb BookStats.ISBN Books.ISBN gold_row
                 (book_stats (filter_where valid_rating r))
                 (dropna books_subset_nulls b)).
Proof.
  intros H1 H2 H3 H4.
  set (bs := dropna books_subset_nulls b).
  set (rs := filter_where valid_rating r).
  set (us := dropna users_all_nulls u).
  set (gold := join_inner String.eqb BookStats.ISBN Books.ISBN gold_row
                 (book_stats rs) bs).
  set (s0 := mkPipeline (Some b) (Some r) (Some u) (books_silver self)
               (ratings_silver self) (users_silver self) (gold_books self)).
  set (s1 := mkPipeline (Some b) (Some r) (Some u) (Some bs) (Some rs)
               (Some us) (gold_books self)).
  set (s2 := mkPipeline (Some b) (Some r) (Some u) (Some bs) (Some rs)
               (Some us) (Some gold)).
  assert (E0 : load_bronze (inr b) (inr r) (inr u) self = (s0, inr tt))
    by apply load_bronze_returns.
  assert (E1 : transform_silver s0 = (s1, inr tt))
    by (apply (@transform_silver_returns s0 b r u); reflexivity).
  assert (E2 : aggregate_gold s1 = (s2, inr tt))
    by (apply (@aggregate_gold_returns s1 rs bs); reflexivity).
  pose proof (@get_top_books_returns o1 s2 gold n1 eq_refl H1) as E3.
  pose proof (@get_top_authors_returns o2 s2 gold n2 eq_refl H2) as E4.
  pose proof (@get_top_locations_returns o3 s2 us rs n3 eq_refl eq_refl H3)
    as E5.
  pose proof (@get_top_ages_returns o4 s2 us rs n4 eq_refl eq_refl H4) as E6.
  unfold returns in E3, E4, E5, E6.
  exists s2. eexists.
  unfold run_calls, run_call, outcome.
  rewrite E0. cbn [fst snd]. rewrite E1. cbn [fst snd].
  rewrite E2. cbn [fst snd]. rewrite E3. cbn [fst snd].
  rewrite E4. cbn [fst snd]. rewrite E5. cbn [fst snd].
  rewrite E6. cbn [fst snd].
  repeat split.
Qed.

Lemma stages_in_order_return_witness :
  exists s log,
    run_calls (script_calls (inr ex_books) (inr ex_ratings) (inr ex_users)
                 input_order reverse_order input_order reverse_order) init
    = (s, log)
    /\ map snd log = [true; true; true; true; true; true; true]
    /\ gold_books s = Some ex_gold_rows.
Proof.
  apply (@stages_in_order_return init ex_books ex_ratings ex_users
           input_order reverse_order input_order reverse_order 10 10 10 10);
    unfold int_max; lia.
Defined.
(* ================================================================== *)
(** ** Further properties of the grouped views *)
(* ================================================================== *)

Lemma nat_sum_zero {A} (l : list A) : nat_sum (map (fun _ => 0%nat) l) = 0%nat.
Proof. induction l as [|x l IH]; simpl; [reflexivity | exact IH]. Qed.

Lemma Zsum_of_nat {A} (f : A -> nat) (l : list A) :
  Zsum (map (fun x => Z.of_nat (f x)) l) = Z.of_nat (nat_sum (map f l)).
Proof.
  unfold Zsum. induction l as [|x l IH]; simpl; [reflexivity|].
  rewrite IH. lia.
Qed.

Section GroupSizes.
Variables (K : Type) (eqb : K -> K -> bool).
Hypothesis eqb_spec : forall a b, eqb a b = true <-> a = b.
Variables (R : Type) (key : R -> K).

Lemma eqb_comm (a b : K) : eqb a b = eqb b a.
Proof.
  destruct (eqb a b) eqn:E1; destruct (eqb b a) eqn:E2; try reflexivity.
  - apply eqb_spec in E1. subst. rewrite (proj2 (eqb_spec b b) eq_refl) in E2.
    discriminate.
  - apply eqb_spec in E2. subst. rewrite (proj2 (eqb_spec a a) eq_refl) in E1.
    discriminate.
Qed.

(** Over keys without repetition that cover the rows, the groups split
    the rows. *)
Lemma group_sizes_cover (ks : list K) (df : list R) :
  NoDup ks -> (forall r, In r df -> In (key r) ks) ->
  nat_sum (map (fun k => length (filter (fun r => eqb (key r) k) df)) ks)
  = length df.
Proof.
  intros Hnd. induction df as [|r df IH]; intros Hcov.
  - simpl. apply nat_sum_zero.
  - rewrite (map_ext _ (fun k => ((if eqb k (key r) then 1 else 0)
                                  + length (filter (fun r0 => eqb (key r0) k) df))%nat)).
    + rewrite nat_sum_add, <- filter_length_sum, IH
        by (intros; apply Hcov; now right).
      rewrite (@filter_eqb_NoDup _ _ eqb_spec _ _ Hnd) by (apply Hcov; now left).
      reflexivity.
    + intros k. simpl. rewrite (eqb_comm k (key r)).
      destruct (eqb (key r) k); reflexivity.
Qed.

Lemma groupBy_sizes (df : list R) :
  nat_sum (map (fun g => length (snd g)) (groupBy eqb key df)) = length df.
Proof.
  unfold groupBy. rewrite map_map. simpl.
  apply group_sizes_cover.
  - apply (@distinct_NoDup _ _ eqb_spec).
  - intros r Hr. apply (proj2 (@distinct_In _ _ eqb_spec _ _)). now apply in_map.
Qed.
End GroupSizes.

Lemma author_counts_total (gold : list Gold.row) :
  Zsum (map AuthorCount.rating_count (author_counts gold))
  = Z.of_nat (length gold).
Proof.
  unfold author_counts. rewrite map_map. simpl.
  rewrite (map_ext _ (fun g : option string * list Gold.row =>
                        Z.of_nat (length (snd g))))
    by (intros g; apply count_Some_length).
  rewrite Zsum_of_nat. f_equal. apply (@groupBy_sizes _ _ string_key_spec).
Qed.



Lemma top_all_total {R} (o : RowOrder) (metric f : R -> Z) (n : Z)
    (df : list R) :
  Z.of_nat (length df) <= n ->
  Zsum (map f (firstn (Z.to_nat n) (orderBy_desc o metric df)))
  = Zsum (map f df).
Proof.
  intros Hn. rewrite firstn_all2 by (rewrite orderBy_desc_length; lia).
  apply Zsum_Permutation, Permutation_map, Permutation_sym, orderBy_desc_perm.
Qed.

(** X10.  When the requested count covers all authors and is a Java int,
    the counts of the top-authors view add up to the number of gold
    rows. *)
Theorem top_authors_total (o : RowOrder) (self : BooksPipeline) gold (n : Z) :
  gold_books self = Some gold ->
  Z.of_nat (length (author_counts gold)) <= n <= int_max ->
  exists top,
    returns (get_top_authors o n) self self top
    /\ Zsum (map AuthorCount.rating_count top) = Z.of_nat (length gold).
Proof.
  intros Hg Hn. eexists.
  split; [apply (get_top_authors_returns o self Hg); lia|].
  rewrite top_all_total by lia. apply author_counts_total.
Qed.

Lemma top_authors_total_witness :
  exists top,
    returns (get_top_authors reverse_order 10) ex_gold ex_gold top
    /\ Zsum (map AuthorCount.rating_count top)
       = Z.of_nat (length ex_gold_rows).
Proof.
  apply (@top_authors_total reverse_order ex_gold ex_gold_rows 10);
    [reflexivity | split; vm_compute; discriminate].
Defined.



Lemma location_counts_bucket (j : list UserRating.row) (l : LocationCount.row) :
  In l (location_counts j) ->
  In (LocationCount.Location l) (map UserRating.Location j)
  /\ joined_at_location (LocationCount.Location l) j <> [].
Proof.
  unfold location_counts. rewrite in_map_iff.
  intros [[k rows] [<- H]]. simpl.
  pose proof (@groupBy_nonempty _ _ string_key_spec _ _ _ _ _ H) as Hne.
  apply (@groupBy_In _ _ string_key_spec) in H. destruct H as [Hk ->].
  split; assumption.
Qed.

Lemma age_counts_bucket (j : list UserRating.row) (a : AgeCount.row) :
  In a (age_counts j) ->
  In (AgeCount.Age a) (map UserRating.Age j)
  /\ joined_at_age (AgeCount.Age a) j <> [].
Proof.
  unfold age_counts. rewrite in_map_iff.
  intros [[k rows] [<- H]]. simpl.
  pose proof (@groupBy_nonempty _ _ Z_key_spec _ _ _ _ _ H) as Hne.
  apply (@groupBy_In _ _ Z_key_spec) in H. destruct H as [Hk ->].
  split; assumption.
Qed.

Lemma silver_user_no_null (u : list Users.row) (x : Users.row) :
  In x (dropna users_all_nulls u) ->
  Users.User_ID x <> None /\ Users.Location x <> None /\ Users.Age x <> None.
Proof.
  intros H. apply dropna_In in H. destruct H as [_ H].
  unfold users_all_nulls in H.
  apply Forall_cons_iff in H. destruct H as [H1 H].
  apply Forall_cons_iff in H. destruct H as [H2 H].
  apply Forall_cons_iff in H. destruct H as [H3 _].
  apply is_null_false in H1, H2, H3. tauto.
Qed.

(** X12.  After cleaning and aggregating, and for a count that is a Java
    int and not negative, no view has a NULL bucket: every
    row of the top-authors view has an author, every row of the location
    view a location, every row of the age view an age, and every count in
    the location and age views is at least 1. *)
Theorem views_have_no_null_bucket (o1 o2 o3 : RowOrder)
    (self s1 s2 : BooksPipeline) (n : Z) :
  returns transform_silver self s1 tt ->
  returns aggregate_gold s1 s2 tt ->
  0 <= n <= int_max ->
  exists top_authors top_locations top_ages,
    returns (get_top_authors o1 n) s2 s2 top_authors
    /\ returns (get_top_locations_of_users_who_rated_books o2 n) s2 s2
         top_locations
    /\ returns (get_top_age_of_users_who_rated_books o3 n) s2 s2 top_ages
    /\ (forall a, In a top_authors -> AuthorCount.Book_Author a <> None)
    /\ (forall l, In l top_locations ->
          LocationCount.Location l <> None /\ 1 <= LocationCount.user_count l)
    /\ (forall a, In a top_ages ->
          AgeCount.Age a <> None /\ 1 <= AgeCount.user_count a).
Proof.
  intros Ht Ha Hn.
  apply transform_silver_inv in Ht. destruct Ht as [b [r [u [Hb [Hr [Hu ->]]]]]].
  unfold returns in Ha. simpl in Ha. inversion Ha; subst s2; clear Ha.
  set (bs := dropna books_subset_nulls b).
  set (rs := filter_where valid_rating r).
  set (us := dropna users_all_nulls u).
  set (gold := join_inner String.eqb BookStats.ISBN Books.ISBN gold_row
                 (book_stats rs) bs).
  set (s2 := mkPipeline (Some b) (Some r) (Some u) (Some bs) (Some rs)
               (Some us) (Some gold)).
  do 3 eexists.
  split; [apply (@get_top_authors_returns o1 s2 gold n);
          [reflexivity | exact Hn]|].
  split; [apply (@get_top_locations_returns o2 s2 us rs n);
          [reflexivity | reflexivity | exact Hn]|].
  split; [apply (@get_top_ages_returns o3 s2 us rs n);
          [reflexivity | reflexivity | exact Hn]|].
  split; [|split].
  - intros a Hin. apply firstn_orderBy_In, author_counts_In in Hin.
    destruct Hin as [Hk _]. apply in_map_iff in Hk. destruct Hk as [g [<- Hg]].
    apply gold_row_origin in Hg.
    destruct Hg as [i [rows [bk [_ [_ [Hbk [_ ->]]]]]]]. simpl.
    apply dropna_In in Hbk. destruct Hbk as [_ Hnn].
    unfold books_subset_nulls in Hnn.
    apply Forall_cons_iff in Hnn. destruct Hnn as [_ Hnn].
    apply Forall_cons_iff in Hnn. destruct Hnn as [Ha1 _].
    now apply is_null_false in Ha1.
  - intros l Hin. apply firstn_orderBy_In in Hin.
    pose proof (location_counts_In _ _ Hin) as Hc.
    apply location_counts_bucket in Hin. destruct Hin as [Hk Hne].
    split.
    + apply in_map_iff in Hk. destruct Hk as [j [<- Hj]].
      apply users_join_ratings_In in Hj.
      destruct Hj as [x [y [Hx [_ [_ ->]]]]]. simpl.
      apply (silver_user_no_null u x Hx).
    + rewrite Hc, count_all_present.
      * destruct (joined_at_location (LocationCount.Location l)
                    (users_join_ratings us rs));
          [congruence | simpl length; lia].
      * intros j Hj. apply filter_In in Hj.
        apply (users_join_ratings_key us rs), Hj.
  - intros a Hin. apply firstn_orderBy_In in Hin.
    pose proof (age_counts_In _ _ Hin) as Hc.
    apply age_counts_bucket in Hin. destruct Hin as [Hk Hne].
    split.
    + apply in_map_iff in Hk. destruct Hk as [j [<- Hj]].
      apply users_join_ratings_In in Hj.
      destruct Hj as [x [y [Hx [_ [_ ->]]]]]. simpl.
      apply (silver_user_no_null u x Hx).
    + rewrite Hc, count_all_present.
      * destruct (joined_at_age (AgeCount.Age a) (users_join_ratings us rs));
          [congruence | simpl length; lia].
      * intros j Hj. apply filter_In in Hj.
        apply (users_join_ratings_key us rs), Hj.
Qed.

Lemma views_have_no_null_bucket_witness :
  exists top_authors top_locations top_ages,
    returns (get_top_authors input_order 10) ex_gold ex_gold top_authors
    /\ returns (get_top_locations_of_users_who_rated_books reverse_order 10)
         ex_gold ex_gold top_locations
    /\ returns (get_top_age_of_users_who_rated_books input_order 10)
         ex_gold ex_gold top_ages
    /\ (forall a, In a top_authors -> AuthorCount.Book_Author a <> None)
    /\ (forall l, In l top_locations ->
          LocationCount.Location l <> None /\ 1 <= LocationCount.user_count l)
    /\ (forall a, In a top_ages ->
          AgeCount.Age a <> None /\ 1 <= AgeCount.user_count a).
Proof.
  apply (@views_have_no_null_bucket input_order reverse_order input_order
           ex_loaded ex_silver ex_gold 10);
    [reflexivity | reflexivity | unfold int_max; lia].
Defined.

(* ================================================================== *)
(** ** Further properties of the order of the stages *)
(* ================================================================== *)

(** X14.  [transform_silver] assigns its three results one after the other
    and stops at the first bronze attribute that is missing: without
    [books] nothing is assigned; with [books] but without [ratings] only
    [books_silver] is assigned; with both but without [users],
    [books_silver] and [ratings_silver] are assigned and [users_silver] is
    not.  Each time the attribute error names the missing attribute. *)
Theorem transform_silver_stops_at_missing (self : BooksPipeline) :
  (books self = None ->
   transform_silver self = (self, inl (AttributeError "books")))
  /\ (forall b, books self = Some b -> ratings self = None ->
      exists s1,
        transform_silver self = (s1, inl (AttributeError "ratings"))
        /\ books_silver s1 = Some (dropna books_subset_nulls b)
        /\ ratings_silver s1 = ratings_silver self
        /\ users_silver s1 = users_silver self
        /\ gold_books s1 = gold_books self)
  /\ (forall b r, books self = Some b -> ratings self = Some r ->
      users self = None ->
      exists s1,
        transform_silver self = (s1, inl (AttributeError "users"))
        /\ books_silver s1 = Some (dropna books_subset_nulls b)
        /\ ratings_silver s1 = Some (filter_where valid_rating r)
        /\ users_silver s1 = users_silver self
        /\ gold_books s1 = gold_books self).
Proof.
  destruct self as [b0 r0 u0 bs0 rs0 us0 g0]. simpl. repeat split.
  - intros ->. reflexivity.
  - intros b -> ->. eexists. split; [reflexivity|]. repeat split.
  - intros b r -> -> ->. eexists. split; [reflexivity|]. repeat split.
Qed.

Lemma transform_silver_stops_at_missing_witness :
  exists s1,
    transform_silver ex_books_only = (s1, inl (AttributeError "ratings"))
    /\ books_silver s1 = Some (dropna books_subset_nulls ex_books)
    /\ ratings_silver s1 = ratings_silver ex_books_only
    /\ users_silver s1 = users_silver ex_books_only
    /\ gold_books s1 = gold_books ex_books_only.
Proof.
  apply (proj1 (proj2 (transform_silver_stops_at_missing ex_books_only))
           ex_books); reflexivity.
Defined.

(** X15.  The location and age views read the silver datasets only: on an
    object that was cleaned but never aggregated they return (for a count
    that is a Java int and not negative), while the book and author views
    raise the attribute error for [gold_books]. *)
Theorem cross_views_need_no_gold (o : RowOrder) (self : BooksPipeline)
    b r u (n : Z) :
  books self = Some b -> ratings self = Some r -> users self = Some u ->
  gold_books self = None -> 0 <= n <= int_max ->
  exists s1 top_locations top_ages,
    returns transform_silver self s1 tt
    /\ returns (get_top_locations_of_users_who_rated_books o n) s1 s1
         top_locations
    /\ returns (get_top_age_of_users_who_rated_books o n) s1 s1 top_ages
    /\ get_top_books o n s1 = (s1, inl (AttributeError "gold_books"))
    /\ get_top_authors o n s1 = (s1, inl (AttributeError "gold_books")).
Proof.
  intros Hb Hr Hu Hg Hn.
  pose proof (transform_silver_returns self Hb Hr Hu) as Ht.
  do 3 eexists.
  split; [exact Ht|].
  split; [apply get_top_locations_returns; [reflexivity | reflexivity | exact Hn]|].
  split; [apply get_top_ages_returns; [reflexivity | reflexivity | exact Hn]|].
  apply top_of_gold_no_gold. exact Hg.
Qed.

Lemma cross_views_need_no_gold_witness :
  exists s1 top_locations top_ages,
    returns transform_silver ex_loaded s1 tt
    /\ returns (get_top_locations_of_users_who_rated_books input_order 10)
         s1 s1 top_locations
    /\ returns (get_top_age_of_users_who_rated_books input_order 10) s1 s1
         top_ages
    /\ get_top_books input_order 10 s1
       = (s1, inl (AttributeError "gold_books"))
    /\ get_top_authors input_order 10 s1
       = (s1, inl (AttributeError "gold_books")).
Proof.
  apply (@cross_views_need_no_gold input_order ex_loaded ex_books ex_ratings
           ex_users 10);
    [reflexivity | reflexivity | reflexivity | reflexivity
     | unfold int_max; lia].
Defined.

(* ================================================================== *)
(** ** Further properties of the top rows *)
(* ================================================================== *)

(** X16.  For a count [1 <= n <= 2^31 - 1] and a gold dataset with rows,
    the first row [get_top_books] returns has the largest [rating_count]
    of the whole gold dataset, whatever the row order of the job. *)
Theorem top_books_first_is_max (o : RowOrder) (self : BooksPipeline) gold
    (n : Z) :
  gold_books self = Some gold -> gold <> [] -> 1 <= n <= int_max ->
  exists first rest,
    returns (get_top_books o n) self self (first :: rest)
    /\ In first gold
    /\ forall g, In g gold -> Gold.rating_count g <= Gold.rating_count first.
Proof.
  intros Hg Hne Hn.
  pose proof (get_top_books_returns o self Hg (n := n)) as Hret.
  pose proof (orderBy_desc_perm o Gold.rating_count gold) as Hperm.
  pose proof (orderBy_desc_sorted o Gold.rating_count gold) as Hsorted.
  destruct (orderBy_desc o Gold.rating_count gold) as [|x sorted] eqn:E.
  - apply Permutation_sym, Permutation_nil in Hperm. contradiction.
  - replace (Z.to_nat n) with (S (Z.to_nat (n - 1))) in Hret by lia.
    simpl in Hret. do 2 eexists. split; [apply Hret; lia|].
    split.
    + apply (Permutation_in x (Permutation_sym Hperm)). now left.
    + intros g Hin. apply (Permutation_in g Hperm) in Hin.
      apply StronglySorted_inv in Hsorted. destruct Hsorted as [_ Hall].
      destruct Hin as [<-|Hin]; [lia|].
      rewrite Forall_forall in Hall. now apply Hall.
Qed.

Lemma top_books_first_is_max_witness :
  exists first rest,
    returns (get_top_books reverse_order 1) ex_gold ex_gold (first :: rest)
    /\ In first ex_gold_rows
    /\ forall g, In g ex_gold_rows ->
                 Gold.rating_count g <= Gold.rating_count first.
Proof.
  apply (@top_books_first_is_max reverse_order ex_gold ex_gold_rows 1);
    [reflexivity | discriminate | unfold int_max; lia].
Defined.

Lemma filter_filter_implied {A} (p q : A -> bool) (l : list A) :
  (forall x, p x = true -> q x = true) ->
  filter p (filter q l) = filter p l.
Proof.
  intros H. induction l as [|x l IH]; simpl; [reflexivity|].
  destruct (q x) eqn:Eq; simpl.
  - destruct (p x); now rewrite IH.
  - destruct (p x) eqn:Ep; [|exact IH].
    apply H in Ep. congruence.
Qed.

Lemma flat_map_ext_In {A B} (f g : A -> list B) (l : list A) :
  (forall x, In x l -> f x = g x) -> flat_map f l = flat_map g l.
Proof.
  induction l as [|x l IH]; simpl; intros H; [reflexivity|].
  rewrite (H x) by now left. f_equal. apply IH. intros; apply H; now right.
Qed.

(** The join sees only the rating rows of known users. *)
Lemma users_join_known_ratings (us : list Users.row) (rs : list Ratings.row) :
  users_join_ratings us (filter (known_user us) rs) = users_join_ratings us rs.
Proof.
  unfold users_join_ratings, join_inner.
  apply flat_map_ext_In. intros u Hu. f_equal.
  apply filter_filter_implied. intros r Hm.
  unfold known_user. apply existsb_exists. now exists u.
Qed.

(** X17.  Rating rows whose [User-ID] is NULL or belongs to no silver user
    row (a user that cleaning dropped, for one) play no part in the
    location and age views: taking them out of the silver ratings leaves
    both views as they are. *)
Theorem cross_views_ignore_unknown_users (o : RowOrder)
    (self self' : BooksPipeline) us rs (n : Z) :
  users_silver self = Some us -> ratings_silver self = Some rs ->
  users_silver self' = Some us ->
  ratings_silver self' = Some (filter (known_user us) rs) ->
  snd (get_top_locations_of_users_who_rated_books o n self')
  = snd (get_top_locations_of_users_who_rated_books o n self)
  /\ snd (get_top_age_of_users_who_rated_books o n self')
     = snd (get_top_age_of_users_who_rated_books o n self).
Proof.
  intros Hu Hr Hu' Hr'.
  rewrite (get_top_locations_limit o self n Hu Hr),
    (get_top_locations_limit o self' n Hu' Hr'),
    (get_top_ages_limit o self n Hu Hr),
    (get_top_ages_limit o self' n Hu' Hr'),
    users_join_known_ratings.
  split; reflexivity.
Qed.

Lemma cross_views_ignore_unknown_users_witness :
  snd (get_top_locations_of_users_who_rated_books input_order 10
         (fst (set_ratings_silver
                 (filter (known_user ex_silver_users) ex_silver_ratings)
                 ex_silver)))
  = snd (get_top_locations_of_users_who_rated_books input_order 10 ex_silver)
  /\ snd (get_top_age_of_users_who_rated_books input_order 10
            (fst (set_ratings_silver
                    (filter (known_user ex_silver_users) ex_silver_ratings)
                    ex_silver)))
     = snd (get_top_age_of_users_who_rated_books input_order 10 ex_silver).
Proof.
  apply (@cross_views_ignore_unknown_users input_order ex_silver
           (fst (set_ratings_silver
                   (filter (known_user ex_silver_users) ex_silver_ratings)
                   ex_silver))
           ex_silver_users ex_silver_ratings 10); reflexivity.
Defined.

